(** * The generic CRUD resource framework of the Flask scaffold

    A shallow embedding of [app/common/utils.py], [app/common/common_func.py],
    [app/common/interface_control.py] and [app/common/common_resource.py],
    with the properties of the request pipeline that the specification
    states about them. *)

From Stdlib Require Import Ascii String ZArith Lia.
From stdpp Require Import gmap strings list fin_maps.

Set Warnings "-register-all".

Open Scope string_scope.
Open Scope Z_scope.

(** ** Python values *)

(** The values stored in columns, carried by request arguments and sent in
    response bodies.  A nested [dict] keeps its insertion order. *)
Inductive pyval : Type :=
| VNone
| VInt (n : Z)
| VStr (s : string)
| VList (l : list pyval)
| VDict (d : list (string * pyval)).

(** [bool(v)] *)
Definition truthy (v : pyval) : bool :=
  match v with
  | VNone => false
  | VInt n => negb (n =? 0)
  | VStr s => negb (String.eqb s "")
  | VList l => match l with [] => false | _ => true end
  | VDict d => match d with [] => false | _ => true end
  end.

Definition is_none (v : pyval) : bool :=
  match v with VNone => true | _ => false end.

(** [isinstance(v, dict)] *)
Definition is_dict (v : pyval) : bool :=
  match v with VDict _ => true | _ => false end.

(** [k in d] and [d[k]] on a nested dict. *)
Fixpoint dict_get (k : string) (d : list (string * pyval)) : option pyval :=
  match d with
  | [] => None
  | (k', v) :: d' => if String.eqb k k' then Some v else dict_get k d'
  end.

(** [a == b] on values, as the storage engine compares a column with a
    literal ([filter_by] renders a [None] literal as [IS NULL]). *)
Fixpoint pyval_eqb (a b : pyval) : bool :=
  match a, b with
  | VNone, VNone => true
  | VInt x, VInt y => x =? y
  | VStr s, VStr t => String.eqb s t
  | VList l, VList m =>
      (fix go (l m : list pyval) : bool :=
         match l, m with
         | [], [] => true
         | x :: l', y :: m' => pyval_eqb x y && go l' m'
         | _, _ => false
         end) l m
  | VDict d, VDict e =>
      (fix go (d e : list (string * pyval)) : bool :=
         match d, e with
         | [], [] => true
         | (k, x) :: d', (k', y) :: e' =>
             String.eqb k k' && pyval_eqb x y && go d' e'
         | _, _ => false
         end) d e
  | _, _ => false
  end.

(** A record is an ORM instance: its attribute names and their values
    ([hasattr] is membership, a [NULL] column holds [VNone]). *)
Abbreviation record := (gmap string pyval).

(** ** Exceptions and results *)

Inductive exn : Type :=
| TypeError
| AttributeError
| JSONDecodeError
| BadRequest
| DbError
| HookError (tag : string).

Inductive result (A : Type) : Type :=
| Ok (a : A)
| Raise (e : exn).
Arguments Ok {A} a.
Arguments Raise {A} e.

Definition result_bind {A B} (m : result A) (k : A → result B) : result B :=
  match m with
  | Ok a => k a
  | Raise e => Raise e
  end.

Notation "'let?' x := m 'in' k" := (result_bind m (fun x => k))
  (at level 10, x name, m at level 200, k at level 200).

(** [[f(x) for x in xs]]: the first exception aborts the comprehension. *)
Fixpoint comprehension {A B} (f : A → result B) (xs : list A) : result (list B) :=
  match xs with
  | [] => Ok []
  | x :: xs' =>
      let? y := f x in
      let? ys := comprehension f xs' in
      Ok (y :: ys)
  end.

(** ** Response envelope *)

Record Response : Type := mkResponse {
  code : Z;
  message : string;
  data : pyval;
  request_id : option string;
  status_code : Z;
}.

(** The objects that flow through a pipeline variable: plain data, a dict
    built by the framework (parsed arguments, a serialized record), one ORM
    instance, a list (what [query.all()] returns), or a pre-built response.
    Only ORM instances carry attributes in this model. *)
Inductive pyobj : Type :=
| PVal (v : pyval)
| PDict (d : gmap string pyval)
| PRow (r : record)
| PList (l : list pyobj)
| PResp (resp : Response).

Definition PNone : pyobj := PVal VNone.

(** [isinstance(o, Response)] *)
Definition is_response (o : pyobj) : bool :=
  match o with PResp _ => true | _ => false end.

(** [o is None] *)
Definition is_None (o : pyobj) : bool :=
  match o with PVal VNone => true | _ => false end.

(** [not o] *)
Definition falsy (o : pyobj) : bool :=
  match o with
  | PVal v => negb (truthy v)
  | PDict d => match map_to_list d with [] => true | _ => false end
  | PRow _ => false
  | PList l => match l with [] => true | _ => false end
  | PResp _ => false
  end.

(** ** The missing [app.common.constants] module

    [constants.py] is imported by the sources but is not part of them; its
    three names used here are taken as parameters. *)
Class Constants : Type := {
  SUCCESS_CODE : Z;
  FAILED_CODE : Z;
  DB_QUERY_OBJ_ATTRS : list string;
}.

(** ** [json.loads] and [json.dumps] of the Standard Library of Python *)
Class JsonCodec : Type := {
  json_loads : string → result pyval;
  json_dumps : pyval → string;
}.

(** ** utils.py *)

Module utils.
Section utils.
Context {Codec : JsonCodec}.

Definition loads_json_str (json_data : pyval) : result pyval :=
  if truthy json_data then
    match json_data with
    | VStr s => json_loads s
    | VDict _ | VList _ => Ok json_data
    | _ => Ok (VDict [])
    end
  else Ok (VDict []).

Definition dumps_json_str (data : pyval) : pyval :=
  if is_none data then VStr "{}" else VStr (json_dumps data).
End utils.
End utils.
Import utils.

(** ** common_func.py *)

(** An actual argument of a call. *)
Inductive argument : Type :=
| ArgObj (o : pyobj)
| ArgInt (n : Z)
| ArgNames (names : list string).

Module common_func.
Section common_func.
Context {Consts : Constants} {Codec : JsonCodec}.

(** [attr.startswith('_')] *)
Definition startswith_underscore (s : string) : bool :=
  match s with
  | String c _ => Ascii.eqb c "_"%char
  | EmptyString => false
  end.

Definition name_in (s : string) (l : list string) : bool :=
  existsb (String.eqb s) l.

(** [dir(item)] *)
Definition dir (item : pyobj) : list string :=
  match item with
  | PRow r => (map_to_list r).*1
  | _ => []
  end.

(** The value the loop reads for [feature]: [item.get(feature)] on a dict
    that has the key, [getattr(item, feature)] on an object that has the
    attribute, nothing otherwise ([continue]). *)
Definition feature_lookup (item : pyobj) (feature : string) : option pyval :=
  match item with
  | PVal (VDict d) => dict_get feature d
  | PRow r => r !! feature
  | _ => None
  end.

(** One iteration of [for feature in item_features]. The test
    [isinstance(feature, datetime)] is applied to the field name, a [str],
    so the [strftime] branch is never taken. *)
Definition process_feature (item : pyobj)
    (json_load_features json_dump_features : list string)
    (format_result : gmap string pyval) (feature : string)
    : result (gmap string pyval) :=
  match feature_lookup item feature with
  | None => Ok format_result
  | Some feature_value =>
      if is_none feature_value then Ok (<[feature := feature_value]> format_result)
      else
        let? feature_value :=
          if name_in feature json_load_features
          then loads_json_str (VStr feature)
          else Ok feature_value in
        let feature_value :=
          if name_in feature json_dump_features
          then dumps_json_str (VStr feature)
          else feature_value in
        Ok (<[feature := feature_value]> format_result)
  end.

Fixpoint process_features (item : pyobj)
    (json_load_features json_dump_features : list string)
    (format_result : gmap string pyval) (item_features : list string)
    : result (gmap string pyval) :=
  match item_features with
  | [] => Ok format_result
  | feature :: rest =>
      let? format_result :=
        process_feature item json_load_features json_dump_features
          format_result feature in
      process_features item json_load_features json_dump_features
        format_result rest
  end.

(** The body of [__process_query_item_data], its parameters bound. *)
Definition process_query_item_data_body (item : pyobj) (date_format : Z)
    (item_features json_load_features json_dump_features : list string)
    : result (gmap string pyval) :=
  if falsy item then Ok ∅
  else
    let item_features :=
      match item_features with
      | [] => filter (λ attr, negb (startswith_underscore attr)
                              && negb (name_in attr DB_QUERY_OBJ_ATTRS))
                     (dir item)
      | _ => item_features
      end in
    process_features item json_load_features json_dump_features ∅ item_features.

Definition kw_int (name : string) (default : Z)
    (keywords : list (string * argument)) : Z :=
  match list_find (λ kv, kv.1 = name) keywords with
  | Some (_, (_, ArgInt n)) => n
  | _ => default
  end.

Definition kw_names (name : string)
    (keywords : list (string * argument)) : list string :=
  match list_find (λ kv, kv.1 = name) keywords with
  | Some (_, (_, ArgNames l)) => l
  | _ => []
  end.

Definition process_query_item_data_keywords : list string :=
  ["date_format"; "item_features"; "json_load_features"; "json_dump_features"].

(** A call of
    [__process_query_item_data(item, *, date_format=1, item_features=[],
    json_load_features=[], json_dump_features=[])]: the function takes one
    positional argument, everything after the bare [*] is keyword-only, and
    a call that does not fit the signature raises [TypeError] before the
    body runs. *)
Definition process_query_item_data
    (positional : list argument) (keywords : list (string * argument))
    : result (gmap string pyval) :=
  match positional with
  | [ArgObj item] =>
      if forallb (λ kv, name_in kv.1 process_query_item_data_keywords) keywords
      then process_query_item_data_body item
             (kw_int "date_format" 1 keywords)
             (kw_names "item_features" keywords)
             (kw_names "json_load_features" keywords)
             (kw_names "json_dump_features" keywords)
      else Raise TypeError
  | _ => Raise TypeError
  end.

(** The elements of [data] when [isinstance(data, list)]. *)
Definition as_list (data : pyobj) : option (list pyobj) :=
  match data with
  | PList l => Some l
  | PVal (VList l) => Some (PVal <$> l)
  | _ => None
  end.

Definition query_data_process (data : pyobj) (date_format : Z)
    (data_features json_load_features json_dump_features : list string)
    : result pyobj :=
  match as_list data with
  | Some items =>
      let? l := comprehension
        (λ item, process_query_item_data
                   [ArgObj item; ArgInt date_format; ArgNames data_features;
                    ArgNames json_load_features; ArgNames json_dump_features] [])
        items in
      Ok (PList (PDict <$> l))
  | None =>
      let? d := process_query_item_data
                  [ArgObj data; ArgInt date_format; ArgNames data_features;
                   ArgNames json_load_features; ArgNames json_dump_features] [] in
      Ok (PDict d)
  end.

(** [jsonify]'s encoder: ORM instances and response objects are not JSON
    serializable. *)
Fixpoint to_json (o : pyobj) : result pyval :=
  match o with
  | PVal v => Ok v
  | PDict d => Ok (VDict (map_to_list d))
  | PList l =>
      let? vs := (fix go (l : list pyobj) : result (list pyval) :=
                    match l with
                    | [] => Ok []
                    | x :: l' =>
                        let? v := to_json x in
                        let? vs := go l' in
                        Ok (v :: vs)
                    end) l in
      Ok (VList vs)
  | PRow _ | PResp _ => Raise TypeError
  end.

(** [http_resp(code, message, data, request_id=..., status=...)]; [data]
    is a dict literal, given by its items. *)
Definition http_resp (code : Z) (message : string)
    (data : list (string * pyobj)) (request_id : string) (status : Z)
    : result Response :=
  let? body := (fix go (l : list (string * pyobj)) : result (list (string * pyval)) :=
                  match l with
                  | [] => Ok []
                  | (k, o) :: l' =>
                      let? v := to_json o in
                      let? vs := go l' in
                      Ok ((k, v) :: vs)
                  end) data in
  Ok {| code := code; message := message; data := VDict body;
        request_id := if String.eqb request_id "" then None else Some request_id;
        status_code := status |}.

End common_func.
End common_func.
Import common_func.

(** ** The storage session

    A table is the list of its rows.  [committed] is what the storage holds,
    [session] what the open transaction sees: the committed rows with the
    pending changes of the request applied. *)

Record db : Type := mkDb {
  committed : list record;
  session : list record;
}.

Inductive db_op : Type := Select | Flush | Commit.

(** The storage engine behind the ORM: how it compares a column with a
    literal under a comparison directive, orders rows, cuts a window, and
    which of its operations raise. *)
Class Engine : Type := {
  sql_compare : string → pyval → pyval → bool;
  order_by_desc : string → list record → list record;
  sql_offset : Z → list record → result (list record);
  sql_limit : Z → list record → result (list record);
  db_fault : db_op → option exn;
}.

(** The model class: the attribute names it exposes ([hasattr(model, k)])
    and the column defaults a new row receives at flush. *)
Record Model : Type := mkModel {
  m_attrs : list string;
  m_defaults : record;
}.

(** ** The pipeline monad: a handler step continues with a value, returns a
    response early, or raises; the session is threaded through. *)

Inductive step (A : Type) : Type :=
| Next (a : A)
| Return (resp : Response)
| Throw (e : exn).
Arguments Next {A} a.
Arguments Return {A} resp.
Arguments Throw {A} e.

Definition M (A : Type) : Type := db → db * step A.

Definition ret {A} (a : A) : M A := λ s, (s, Next a).

Definition bind {A B} (m : M A) (k : A → M B) : M B :=
  λ s, match m s with
       | (s', Next a) => k a s'
       | (s', Return r) => (s', Return r)
       | (s', Throw e) => (s', Throw e)
       end.

Notation "'let*' x := m 'in' k" := (bind m (fun x => k))
  (at level 10, x name, m at level 200, k at level 200).
Notation "m ;; k" := (bind m (fun _ => k))
  (at level 100, k at level 200, right associativity).

Definition lift {A} (m : result A) : M A :=
  λ s, match m with Ok a => (s, Next a) | Raise e => (s, Throw e) end.

(** [return resp] *)
Definition early {A} (resp : Response) : M A := λ s, (s, Return resp).

(** [return <call that builds a response>] *)
Definition respond {A} (m : result Response) : M A :=
  λ s, match m with Ok r => (s, Return r) | Raise e => (s, Throw e) end.

Definition get_session : M (list record) := λ s, (s, Next (session s)).

Definition set_session (rows : list record) : M unit :=
  λ s, ({| committed := committed s; session := rows |}, Next tt).

(** [db.session.rollback()] *)
Definition rollback : M unit :=
  λ s, ({| committed := committed s; session := committed s |}, Next tt).

(** [try: body except Exception: handler] *)
Definition try_except {A} (body : M A) (handler : M A) : M A :=
  λ s, match body s with
       | (s', Throw _) => handler s'
       | other => other
       end.

(** What a handler hands back to its caller. *)
Definition finish (m : M Response) : db → db * result Response :=
  λ s, match m s with
       | (s', Next r) | (s', Return r) => (s', Ok r)
       | (s', Throw e) => (s', Raise e)
       end.

Section Storage.
Context {Eng : Engine}.

(** A call into the storage engine. *)
Definition db_call (op : db_op) : M unit :=
  λ s, match db_fault op with
       | Some e => (s, Throw e)
       | None => (s, Next tt)
       end.

(** [db.session.commit()] *)
Definition commit : M unit :=
  db_call Commit ;;
  (λ s, ({| committed := session s; session := session s |}, Next tt)).

Definition row_value (r : record) (field : string) : pyval :=
  default VNone (r !! field).

(** The row carries primary key [ident]. *)
Definition has_id (ident : pyval) (r : record) : bool :=
  match r !! "id" with
  | Some v => pyval_eqb v ident
  | None => false
  end.

(** [model.query.get(ident)]; a [None] key loads nothing. *)
Definition query_get (ident : pyval) : M pyobj :=
  db_call Select ;;
  let* rows := get_session in
  ret (if is_none ident then PNone
       else match find (has_id ident) rows with
            | Some r => PRow r
            | None => PNone
            end).

(** [getattr(item, name, default)] *)
Definition getattr_default (item : pyobj) (name : string) (dflt : pyval) : pyval :=
  match item with
  | PRow r => default dflt (r !! name)
  | _ => dflt
  end.

(** [item.name] *)
Definition getattr (item : pyobj) (name : string) : result pyval :=
  match item with
  | PRow r => match r !! name with Some v => Ok v | None => Raise AttributeError end
  | _ => Raise AttributeError
  end.

(** [hasattr(item, name)] *)
Definition hasattr (item : pyobj) (name : string) : bool :=
  match item with
  | PRow r => bool_decide (is_Some (r !! name))
  | _ => false
  end.

(** The pending write of an attribute change: the session row with the
    identity of [old] becomes [new]. *)
Definition session_write (old new : record) (rows : list record) : list record :=
  match old !! "id" with
  | Some ident => (λ r, if has_id ident r then new else r) <$> rows
  | None => rows
  end.

(** [db.session.delete(item)] *)
Definition session_delete (old : record) (rows : list record) : list record :=
  match old !! "id" with
  | Some ident => filter (λ r, has_id ident r = false) rows
  | None => rows
  end.

Definition int_ids (rows : list record) : list Z :=
  omap (λ r, match r !! "id" with Some (VInt n) => Some n | _ => None end) rows.

(** The next value of the auto-increment key. *)
Definition next_id (rows : list record) : Z :=
  1 + foldr Z.max 0 (int_ids rows).

(** [db.session.add(new_item); db.session.flush()]: the columns the
    constructor did not receive take their defaults and the key is
    generated. *)
Definition add_flush (model : Model) (kwargs : record) : M record :=
  db_call Flush ;;
  let* rows := get_session in
  let row := kwargs ∪ m_defaults model in
  let row := match kwargs !! "id" with
             | Some _ => row
             | None => <["id" := VInt (next_id rows)]> row
             end in
  set_session (rows ++ [row]) ;;
  ret row.
End Storage.

(** ** common_resource.py *)

Abbreviation arguments := (gmap string pyval).

(** A request, as the handler sees it: [g.request_id] and what
    [reqparse.RequestParser.parse_args] makes of the payload, a namespace
    with every declared name ([None] where nothing was sent) or the
    [BadRequest] of [abort(400)]. *)
Record Request : Type := mkRequest {
  g_request_id : string;
  parse_args : result arguments;
}.

(** A concrete resource: the constructor arguments of
    [_CommonModelResource] and the optional methods a subclass defines
    ([hasattr(self, name)] is [Some]).  A hook is a function of the rows the
    session shows and of its arguments; it returns an object, which may be a
    response, or raises. It does not write to the session. *)
Record Resource : Type := mkResource {
  ALLOW_METHOD : list string;
  model : Model;
  get_fields : list string;
  date_format : Z;
  json_load_features : list string;
  json_dump_features : list string;
  put_check_exist_fields : list string;
  post_check_exist_fields : list string;
  check_item_exist_func :
    option (list record → list string → arguments → result pyobj);
  get_preprocess_func : option (list record → arguments → result pyobj);
  get_query_func : option (list record → arguments → result (list record));
  add_query_filter : option (list record → arguments → result (list record));
  add_query_sort : option (list record → arguments → result (list record));
  get_postprocess_func : option (list record → pyobj → arguments → result pyobj);
  get_query_data_process_func :
    option (list record → pyobj → arguments → result pyobj);
  get_process_return_data : option (list record → pyobj → arguments → result pyobj);
  post_preprocess_func : option (list record → arguments → result pyobj);
  post_postprocess_func : option (list record → pyobj → arguments → result pyobj);
  post_query_data_process_func :
    option (list record → pyobj → arguments → result pyobj);
  post_process_return_data : option (list record → pyobj → arguments → result pyobj);
  get_item_by_join_func : option (list record → pyval → arguments → result pyobj);
  get_item_func : option (list record → pyval → arguments → result pyobj);
  put_preprocess_func : option (list record → pyobj → arguments → result pyobj);
  put_postprocess_func : option (list record → pyobj → arguments → result pyobj);
  put_query_data_process_func :
    option (list record → pyobj → arguments → result pyobj);
  put_process_return_data : option (list record → pyobj → arguments → result pyobj);
  delete_preprocess_func : option (list record → pyobj → arguments → result pyobj);
  delete_postprocess_func : option (list record → pyobj → arguments → result pyobj);
}.

(** The messages of the envelopes. *)
Definition MSG_OK : string := "请求成功".
Definition MSG_QUERY_FAILED : string := "查询失败".
Definition MSG_EMPTY_ARGS : string := "参数不能为空".
Definition MSG_EXISTS : string := "数据已存在".
Definition MSG_CREATE_FAILED : string := "添加失败".
Definition MSG_CREATED : string := "添加成功".
Definition MSG_NOT_FOUND : string := "数据不存在".
Definition MSG_DUPLICATE : string := "存在相同记录".
Definition MSG_UPDATE_FAILED : string := "修改失败".
Definition MSG_UPDATED : string := "修改成功".
Definition MSG_DELETE_FAILED : string := "删除失败".
Definition MSG_DELETED : string := "删除成功".
Definition MSG_SERVER_ERROR : string := "服务出错".

Module CommonResource.
Section CommonResource.
Context {Consts : Constants} {Codec : JsonCodec} {Eng : Engine}.

(** [{k: v for k, v in args.items() if v is not None}] *)
Definition get_parser_args (req : Request) : result arguments :=
  let? args := parse_args req in
  Ok (filter (λ kv, negb (is_none kv.2)) args).

(** [self.http_resp(code, message, data, status=200)] *)
Definition http_resp (req : Request) (code : Z) (message : string)
    (data : list (string * pyobj)) (status : Z) : result Response :=
  common_func.http_resp code message data (g_request_id req) status.
End CommonResource.
End CommonResource.

Module interface_control.
Section interface_control.
Context {Consts : Constants} {Codec : JsonCodec} {Eng : Engine}.

(** [@method_control]: [name] is [func.__name__.upper()]. *)
Definition method_control (r : Resource) (req : Request) (name : string)
    (func : db → db * result Response) : db → db * result Response :=
  λ s, if name_in name (ALLOW_METHOD r) then func s
       else (s, common_func.http_resp FAILED_CODE (name ++ " method is not allowed") []
                  (g_request_id req) 404).

(** [@access_logger]: [method] is [request.method.upper()].  [BadRequest]
    passes through, any other exception becomes the 500 envelope, and the
    session of a model resource is rolled back after every verb but GET. *)
Definition access_logger (r : Resource) (req : Request) (method : string)
    (func : M Response) : db → db * result Response :=
  λ s, let '(s', out) := finish func s in
       let ret := match out with
                  | Ok resp => Ok resp
                  | Raise BadRequest => Raise BadRequest
                  | Raise _ => common_func.http_resp FAILED_CODE MSG_SERVER_ERROR []
                                 (g_request_id req) 500
                  end in
       (if String.eqb method "GET" then s'
        else {| committed := committed s'; session := committed s' |}, ret).
End interface_control.
End interface_control.

Module CommonModelResource.
Section CommonModelResource.
Context {Consts : Constants} {Codec : JsonCodec} {Eng : Engine}.

(** [hasattr(model, name)] *)
Definition hasattr_model (model : Model) (name : string) : bool :=
  name_in name (m_attrs model).

(** A pre-hook hands back the arguments of the later steps, a dict. *)
Definition as_args (o : pyobj) : result arguments :=
  match o with
  | PDict d => Ok d
  | _ => Raise TypeError
  end.

(** [if isinstance(o, Response): [db.session.rollback();] return o] *)
Definition return_if_response (with_rollback : bool) (o : pyobj) : M pyobj :=
  match o with
  | PResp resp => (if with_rollback then rollback else ret tt) ;; early resp
  | _ => ret o
  end.

Definition get_item_by_pid (pid : pyval) : M pyobj :=
  let* item := (if truthy pid then query_get pid else ret PNone) in
  ret (if truthy (getattr_default item "is_delete" (VInt 0)) then PNone else item).

(** The directive [_query_filter_other_logic] honours: the first of
    gt, lt, ge, le, ne that is a key of [logic_value]. *)
Definition first_directive (logic_value : list (string * pyval))
    : option (string * pyval) :=
  head (omap (λ op, (λ v, (op, v)) <$> dict_get op logic_value)
             ["gt"; "lt"; "ge"; "le"; "ne"]).

Definition _query_filter_other_logic (model : Model) (query : list record)
    (field : string) (logic_value : list (string * pyval)) : result (list record) :=
  match first_directive logic_value with
  | Some (op, v) =>
      if hasattr_model model field
      then Ok (filter (λ r, sql_compare op (row_value r field) v) query)
      else Raise AttributeError
  | None => Ok query
  end.

(** One iteration of [for field, value in filters.items()]. *)
Definition filters_step (model : Model) (field : string) (value : pyval)
    (acc : result (list record * arguments)) : result (list record * arguments) :=
  let? acc := acc in
  match value with
  | VDict logic_value =>
      let? query := _query_filter_other_logic model acc.1 field logic_value in
      Ok (query, acc.2)
  | _ => Ok (acc.1, <[field := value]> acc.2)
  end.

(** [query.filter_by] with the items of [equal_filters] as keywords. *)
Definition filter_by (model : Model) (equal_filters : arguments)
    (query : list record) : result (list record) :=
  if forallb (λ kv, hasattr_model model kv.1) (map_to_list equal_filters)
  then Ok (filter (λ r, forallb (λ kv, pyval_eqb (row_value r kv.1) kv.2)
                                (map_to_list equal_filters)) query)
  else Raise DbError.

(** [query.with_entities] with [getattr(model, field)] for each field. *)
Definition with_entities (model : Model) (fields : list string)
    (query : list record) : result (list record) :=
  if forallb (hasattr_model model) fields
  then Ok ((λ r : record, filter (λ kv, name_in kv.1 fields) r) <$> query)
  else Raise AttributeError.

(** The query the three filter helpers build; their bodies differ in the
    last call only. *)
Definition filters_query (model : Model) (fields : list string)
    (filters : arguments) (rows : list record) : result (list record) :=
  let filters :=
    if hasattr_model model "is_delete"
    then <["is_delete" := VInt 0]> filters else filters in
  let? acc := map_fold (filters_step model) (Ok (rows, ∅)) filters in
  let? query :=
    match map_to_list acc.2 with
    | [] => Ok acc.1
    | _ => filter_by model acc.2 acc.1
    end in
  match fields with
  | [] => Ok query
  | _ => with_entities model fields query
  end.

Definition get_item_by_filters (model : Model) (fields : list string)
    (filters : arguments) : M pyobj :=
  let* rows := get_session in
  let* query := lift (filters_query model fields filters rows) in
  db_call Select ;;
  ret (match query with r :: _ => PRow r | [] => PNone end).

Definition get_items_by_filters (model : Model) (fields : list string)
    (filters : arguments) : M (list record) :=
  let* rows := get_session in
  let* query := lift (filters_query model fields filters rows) in
  db_call Select ;;
  ret query.

Definition get_count_by_filters (model : Model) (fields : list string)
    (filters : arguments) : M Z :=
  let* rows := get_session in
  let* query := lift (filters_query model fields filters rows) in
  db_call Select ;;
  ret (Z.of_nat (length query)).

Definition check_item_exist (r : Resource) (check_fields : list string)
    (fields_dict : arguments) : M pyobj :=
  match check_fields with
  | _ :: _ =>
      match check_item_exist_func r with
      | Some hook =>
          let* rows := get_session in
          lift (hook rows check_fields fields_dict)
      | None => ret PNone
      end
  | [] =>
      let query_filters : arguments :=
        list_to_map (omap (λ field, (λ v, (field, v)) <$> fields_dict !! field)
                          check_fields) in
      get_item_by_filters (model r) [] query_filters
  end.

Definition query_data_process (r : Resource) (data : pyobj) : result pyobj :=
  common_func.query_data_process data (date_format r) (get_fields r)
    (json_load_features r) (json_dump_features r).

(** A hook on the object in flight, where the caller checks the result. *)
Definition object_hook (with_rollback : bool)
    (hook : option (list record → pyobj → arguments → result pyobj))
    (o : pyobj) (args : arguments) : M pyobj :=
  match hook with
  | Some f =>
      let* rows := get_session in
      let* o' := lift (f rows o args) in
      return_if_response with_rollback o'
  | None => ret o
  end.

(** The serialization step: the custom hook, or the default serializer. *)
Definition data_process_step (with_rollback : bool) (r : Resource)
    (hook : option (list record → pyobj → arguments → result pyobj))
    (o : pyobj) (args : arguments) : M pyobj :=
  match hook with
  | Some f =>
      let* rows := get_session in
      let* o' := lift (f rows o args) in
      return_if_response with_rollback o'
  | None => lift (query_data_process r o)
  end.
End CommonModelResource.
End CommonModelResource.

Module CommonListResource.
Section CommonListResource.
Context {Consts : Constants} {Codec : JsonCodec} {Eng : Engine}.
Import CommonModelResource.

(** [query.count()] *)
Definition get_total (query : list record) : M Z :=
  db_call Select ;; ret (Z.of_nat (length query)).

Definition as_int (v : pyval) : result Z :=
  match v with VInt n => Ok n | _ => Raise TypeError end.

(** [query.offset(offset).limit(limit)] *)
Definition window (offset limit : result Z) (query : list record)
    : result (list record) :=
  let? offset := offset in
  let? query := sql_offset offset query in
  let? limit := limit in
  sql_limit limit query.

(** The pagination step of [get_query]. *)
Definition paginate (args : arguments) (query : list record)
    : result (list record) :=
  match args !! "start", args !! "number" with
  | Some start, Some number => window (as_int start) (as_int number) query
  | _, _ =>
      match args !! "page", args !! "per_page" with
      | Some page, Some per_page =>
          window (let? per_page := as_int per_page in
                  let? page := as_int page in
                  Ok (per_page * (page - 1)))
                 (as_int per_page) query
      | _, _ => Ok query
      end
  end.

(** The query of [get_query] up to its filters: what [self.total] counts. *)
Definition filtered_query (r : Resource) (args : arguments) : M (list record) :=
  let* rows := get_session in
  let* query := match get_query_func r with
                | Some hook => lift (hook rows args)
                | None => ret rows
                end in
  let query :=
    if hasattr_model (model r) "is_delete"
    then filter (λ row, pyval_eqb (row_value row "is_delete") (VInt 0)) query
    else query in
  match add_query_filter r with
  | Some hook => lift (hook query args)
  | None => ret query
  end.

(** [get_query]: the value stored in [self.total] and the query. *)
Definition get_query (r : Resource) (args : arguments) : M (Z * list record) :=
  let* query := filtered_query r args in
  let* total := get_total query in
  let* query := match add_query_sort r with
                | Some hook => lift (hook query args)
                | None =>
                    ret (if hasattr_model (model r) "create_time"
                         then order_by_desc "create_time" query
                         else query)
                end in
  let* query := lift (paginate args query) in
  ret (total, query).

Definition get_items (r : Resource) (args : arguments) : M (Z * pyobj) :=
  let* tq := get_query r args in
  db_call Select ;;
  ret (tq.1, PList (PRow <$> tq.2)).

(** The [try] block of [get]. *)
Definition get_try (r : Resource) (args : arguments) : M (Z * pyobj) :=
  let* args := match get_preprocess_func r with
               | Some hook =>
                   let* rows := get_session in
                   let* out := lift (hook rows args) in
                   let* out := return_if_response false out in
                   lift (as_args out)
               | None => ret args
               end in
  let* ti := get_items r args in
  let* items := match get_postprocess_func r with
                | Some hook =>
                    let* rows := get_session in
                    lift (hook rows ti.2 args)
                | None => ret ti.2
                end in
  let* items := data_process_step false r (get_query_data_process_func r) items args in
  let* items := object_hook false (get_process_return_data r) items args in
  ret (ti.1, items).

Definition get_handler (r : Resource) (req : Request) : M Response :=
  let* args := lift (CommonResource.get_parser_args req) in
  let* ti := try_except (get_try r args)
               (respond (CommonResource.http_resp req FAILED_CODE MSG_QUERY_FAILED [] 200)) in
  respond (CommonResource.http_resp req SUCCESS_CODE MSG_OK
             [("total", PVal (VInt ti.1)); ("items", ti.2)] 200).

Definition get (r : Resource) (req : Request) : db → db * result Response :=
  interface_control.method_control r req "GET"
    (interface_control.access_logger r req "GET" (get_handler r req)).

(** The [try] block of [post]. *)
Definition post_try (r : Resource) (req : Request) (args : arguments) : M pyobj :=
  let* exist := check_item_exist r (post_check_exist_fields r) args in
  (if falsy exist then ret tt
   else respond (CommonResource.http_resp req FAILED_CODE MSG_EXISTS [] 200)) ;;
  let* args := match post_preprocess_func r with
               | Some hook =>
                   let* rows := get_session in
                   let* out := lift (hook rows args) in
                   let* out := return_if_response true out in
                   lift (as_args out)
               | None => ret args
               end in
  let* row := add_flush (model r)
                (filter (λ kv, hasattr_model (model r) kv.1) args) in
  let* new_item := object_hook true (post_postprocess_func r) (PRow row) args in
  let* new_item :=
    data_process_step true r (post_query_data_process_func r) new_item args in
  let* new_item := object_hook true (post_process_return_data r) new_item args in
  commit ;;
  ret new_item.

Definition post_handler (r : Resource) (req : Request) : M Response :=
  let* args := lift (CommonResource.get_parser_args req) in
  match map_to_list args with
  | [] => respond (CommonResource.http_resp req FAILED_CODE MSG_EMPTY_ARGS [] 200)
  | _ =>
      let* new_item :=
        try_except (post_try r req args)
          (rollback ;;
           respond (CommonResource.http_resp req FAILED_CODE MSG_CREATE_FAILED [] 200)) in
      respond (CommonResource.http_resp req SUCCESS_CODE MSG_CREATED
                 [("item", new_item)] 200)
  end.

Definition post (r : Resource) (req : Request) : db → db * result Response :=
  interface_control.method_control r req "POST"
    (interface_control.access_logger r req "POST" (post_handler r req)).
End CommonListResource.
End CommonListResource.

Module CommonItemResource.
Section CommonItemResource.
Context {Consts : Constants} {Codec : JsonCodec} {Eng : Engine}.
Import CommonModelResource.

Definition get_item (r : Resource) (id : pyval) (args : arguments) : M pyobj :=
  let* item := match get_item_func r with
               | Some hook =>
                   let* rows := get_session in
                   lift (hook rows id args)
               | None => query_get id
               end in
  ret (if truthy (getattr_default item "is_delete" (VInt 0)) then PNone else item).

(** [if item is None: return self.http_resp(FAILED_CODE, "数据不存在")] *)
Definition not_found_if_none (req : Request) (item : pyobj) : M unit :=
  if is_None item
  then respond (CommonResource.http_resp req FAILED_CODE MSG_NOT_FOUND [] 200)
  else ret tt.

(** The [try] block of [get]. *)
Definition get_try (r : Resource) (req : Request) (id : pyval)
    (args : arguments) : M pyobj :=
  let* args := match get_preprocess_func r with
               | Some hook =>
                   let* rows := get_session in
                   let* out := lift (hook rows args) in
                   let* out := return_if_response false out in
                   lift (as_args out)
               | None => ret args
               end in
  let* item := match get_item_by_join_func r with
               | Some hook =>
                   let* rows := get_session in
                   lift (hook rows id args)
               | None => get_item r id args
               end in
  let* item := return_if_response false item in
  not_found_if_none req item ;;
  let* item := object_hook false (get_postprocess_func r) item args in
  let* item := data_process_step false r (get_query_data_process_func r) item args in
  object_hook false (get_process_return_data r) item args.

Definition get_handler (r : Resource) (req : Request) (id : pyval) : M Response :=
  let* args := lift (CommonResource.get_parser_args req) in
  let* item := try_except (get_try r req id args)
                 (respond (CommonResource.http_resp req FAILED_CODE MSG_QUERY_FAILED [] 200)) in
  respond (CommonResource.http_resp req SUCCESS_CODE MSG_OK
             [("key", PVal id); ("item", item)] 200).

Definition get (r : Resource) (req : Request) (id : pyval)
    : db → db * result Response :=
  interface_control.method_control r req "GET"
    (interface_control.access_logger r req "GET" (get_handler r req id)).

(** [for key, value in args.items(): if hasattr(item, key):
    setattr(item, key, value)] on the attributes of an instance. *)
Definition put_update_fields (item : record) (args : arguments) : record :=
  map_fold (λ key value (item : record),
              if bool_decide (is_Some (item !! key))
              then <[key := value]> item else item)
           item args.

(** The update step on the object in flight: the instance is changed in
    place, which the session sees. *)
Definition update_item (item : pyobj) (args : arguments) : M pyobj :=
  match item with
  | PRow row =>
      let row' := put_update_fields row args in
      let* rows := get_session in
      set_session (session_write row row' rows) ;;
      ret (PRow row')
  | _ => ret item
  end.

(** [exist_item and exist_item.id != item.id] *)
Definition is_other_record (exist_item item : pyobj) : result bool :=
  if falsy exist_item then Ok false
  else
    let? a := getattr exist_item "id" in
    let? b := getattr item "id" in
    Ok (negb (pyval_eqb a b)).

(** The [try] block of [put]. *)
Definition put_try (r : Resource) (req : Request) (id : pyval)
    (args : arguments) : M pyobj :=
  let* item := get_item r id args in
  let* item := return_if_response true item in
  not_found_if_none req item ;;
  let* args := match put_preprocess_func r with
               | Some hook =>
                   let* rows := get_session in
                   let* out := lift (hook rows item args) in
                   let* out := return_if_response true out in
                   lift (as_args out)
               | None => ret args
               end in
  let* exist_item := check_item_exist r (put_check_exist_fields r) args in
  let* other := lift (is_other_record exist_item item) in
  (if other : bool
   then respond (CommonResource.http_resp req FAILED_CODE MSG_DUPLICATE [] 200)
   else ret tt) ;;
  let* item := update_item item args in
  let* item := object_hook true (put_postprocess_func r) item args in
  let* item := data_process_step true r (put_query_data_process_func r) item args in
  let* item := object_hook true (put_process_return_data r) item args in
  commit ;;
  ret item.

Definition put_handler (r : Resource) (req : Request) (id : pyval) : M Response :=
  let* args := lift (CommonResource.get_parser_args req) in
  match map_to_list args with
  | [] => respond (CommonResource.http_resp req FAILED_CODE MSG_EMPTY_ARGS [] 200)
  | _ =>
      let* item :=
        try_except (put_try r req id args)
          (rollback ;;
           respond (CommonResource.http_resp req FAILED_CODE MSG_UPDATE_FAILED [] 200)) in
      respond (CommonResource.http_resp req SUCCESS_CODE MSG_UPDATED
                 [("key", PVal id); ("item", item)] 200)
  end.

Definition put (r : Resource) (req : Request) (id : pyval)
    : db → db * result Response :=
  interface_control.method_control r req "PUT"
    (interface_control.access_logger r req "PUT" (put_handler r req id)).

(** Step 3 of [delete]: the flag is set on an instance that has it, any
    other instance is handed to [db.session.delete], which accepts mapped
    instances only. *)
Definition delete_item (item : pyobj) : M pyobj :=
  match item with
  | PRow row =>
      let* rows := get_session in
      if hasattr item "is_delete"
      then
        let row' := <["is_delete" := VInt 1]> row in
        set_session (session_write row row' rows) ;;
        ret (PRow row')
      else
        set_session (session_delete row rows) ;;
        ret item
  | _ => lift (Raise DbError)
  end.

(** The [try] block of [delete]. *)
Definition delete_try (r : Resource) (req : Request) (id : pyval)
    (args : arguments) : M unit :=
  let* item := get_item r id args in
  let* item := return_if_response true item in
  not_found_if_none req item ;;
  let* args := match delete_preprocess_func r with
               | Some hook =>
                   let* rows := get_session in
                   let* out := lift (hook rows item args) in
                   let* out := return_if_response true out in
                   lift (as_args out)
               | None => ret args
               end in
  let* item := delete_item item in
  let* _item := object_hook true (delete_postprocess_func r) item args in
  commit.

Definition delete_handler (r : Resource) (req : Request) (id : pyval) : M Response :=
  let* args := lift (CommonResource.get_parser_args req) in
  try_except (delete_try r req id args)
    (rollback ;;
     respond (CommonResource.http_resp req FAILED_CODE MSG_DELETE_FAILED [] 200)) ;;
  respond (CommonResource.http_resp req SUCCESS_CODE MSG_DELETED
             [("key", PVal id)] 200).

Definition delete (r : Resource) (req : Request) (id : pyval)
    : db → db * result Response :=
  interface_control.method_control r req "DELETE"
    (interface_control.access_logger r req "DELETE" (delete_handler r req id)).
End CommonItemResource.
End CommonItemResource.

(** ** A concrete world: constants, codec, engine, model and resources *)

Module World.

(** The values the docstring of [http_resp] gives: [1] success, [0] failure. *)
Definition constants : Constants :=
  {| SUCCESS_CODE := 1; FAILED_CODE := 0;
     DB_QUERY_OBJ_ATTRS := ["metadata"; "query"; "registry"] |}.

Definition quote : string := String (ascii_of_nat 34) "".

(** A codec on the few documents the examples use: it agrees with
    [json.loads] on the two empty containers and on text that is not JSON. *)
Definition codec : JsonCodec :=
  {| json_loads := λ s,
       if String.eqb s "[]" then Ok (VList [])
       else if String.eqb s "{}" then Ok (VDict [])
       else Raise JSONDecodeError;
     json_dumps := λ v,
       match v with
       | VStr s => quote ++ s ++ quote
       | _ => "{}"
       end |}.

Definition compare_int (op : string) (a b : Z) : bool :=
  if String.eqb op "gt" then b <? a
  else if String.eqb op "lt" then a <? b
  else if String.eqb op "ge" then b <=? a
  else if String.eqb op "le" then a <=? b
  else negb (a =? b).

Fixpoint insert_desc (field : string) (r : record) (l : list record) : list record :=
  match l with
  | [] => [r]
  | x :: l' =>
      match r !! field, x !! field with
      | Some (VInt a), Some (VInt b) =>
          if b <? a then r :: l else x :: insert_desc field r l'
      | _, _ => x :: insert_desc field r l'
      end
  end.

(** An engine on integers: comparisons, a stable descending sort, windows
    that reject negative bounds; [faults] says which operations raise. *)
Definition engine (faults : db_op → option exn) : Engine :=
  {| sql_compare := λ op a b,
       match a, b with
       | VInt x, VInt y => compare_int op x y
       | _, _ => false
       end;
     order_by_desc := λ field rows, foldr (insert_desc field) [] rows;
     sql_offset := λ n rows,
       if n <? 0 then Raise DbError else Ok (drop (Z.to_nat n) rows);
     sql_limit := λ n rows,
       if n <? 0 then Raise DbError else Ok (take (Z.to_nat n) rows);
     db_fault := faults |}.

Definition no_fault : db_op → option exn := λ _, None.

(** The engine that never raises. *)
Definition sound_engine : Engine := engine no_fault.

Definition commit_fault : db_op → option exn :=
  λ op, match op with Commit => Some DbError | _ => None end.

(** A model with the soft-delete flag. *)
Definition item_model : Model :=
  {| m_attrs := ["id"; "name"; "note"; "is_delete"];
     m_defaults := {["is_delete" := VInt 0; "note" := VNone]} |}.

(** A resource on [model] that allows every verb; of the hooks it may
    define the serializer (under its three names), the post-hook of the
    reads and the filter of the list query. *)
Definition custom (model : Model) (post_check put_check : list string)
    (serializer reads_post_hook :
       option (list record → pyobj → arguments → result pyobj))
    (query_filter : option (list record → arguments → result (list record)))
    : Resource :=
  {| ALLOW_METHOD := ["GET"; "POST"; "PUT"; "DELETE"];
     model := model;
     get_fields := []; date_format := 1;
     json_load_features := []; json_dump_features := [];
     put_check_exist_fields := put_check;
     post_check_exist_fields := post_check;
     check_item_exist_func := None;
     get_preprocess_func := None; get_query_func := None;
     add_query_filter := query_filter; add_query_sort := None;
     get_postprocess_func := reads_post_hook;
     get_query_data_process_func := serializer;
     get_process_return_data := None;
     post_preprocess_func := None; post_postprocess_func := None;
     post_query_data_process_func := serializer;
     post_process_return_data := None;
     get_item_by_join_func := None; get_item_func := None;
     put_preprocess_func := None; put_postprocess_func := None;
     put_query_data_process_func := serializer;
     put_process_return_data := None;
     delete_preprocess_func := None; delete_postprocess_func := None |}.

(** No hook at all. *)
Definition plain (model : Model) : Resource :=
  custom model [] [] None None None.

(** A serializer of a subclass: the attributes of an instance as they are. *)
Fixpoint attrs_of (o : pyobj) : pyobj :=
  match o with
  | PRow r => PDict r
  | PList l => PList (attrs_of <$> l)
  | _ => o
  end.

Definition attrs_serializer : list record → pyobj → arguments → result pyobj :=
  λ _ o _, Ok (attrs_of o).

(** Uniqueness on [name] declared for create, with its own serializer. *)
Definition unique_name : Resource :=
  custom item_model ["name"] [] (Some attrs_serializer) None None.

Definition prebuilt : Response :=
  {| code := 1; message := "stop"; data := VDict [];
     request_id := None; status_code := 200 |}.

(** A post-hook that answers with a response of its own. *)
Definition short_circuit : Resource :=
  custom item_model [] [] None (Some (λ _ _ _, Ok (PResp prebuilt))) None.

(** A list filter on the [name] argument. *)
Definition name_filter : list record → arguments → result (list record) :=
  λ query args,
    match args !! "name" with
    | Some v => Ok (filter (λ r : record, pyval_eqb (default VNone (r !! "name")) v) query)
    | None => Ok query
    end.

Definition filtered_by_name : Resource :=
  custom item_model [] [] (Some attrs_serializer) None (Some name_filter).

Definition row (id : Z) (name : string) (is_delete : Z) : record :=
  {["id" := VInt id; "name" := VStr name; "note" := VNone;
    "is_delete" := VInt is_delete]}.

(** Uniqueness on [name] declared for update, with its own serializer. *)
Definition updatable : Resource :=
  custom item_model [] ["name"] (Some attrs_serializer) None None.

(** The code and the message of an answer. *)
Definition outcome (r : result Response) : option (Z * string) :=
  match r with
  | Ok resp => Some (code resp, message resp)
  | Raise _ => None
  end.

Definition fresh (rows : list record) : db :=
  {| committed := rows; session := rows |}.

Definition request (args : arguments) : Request :=
  {| g_request_id := "req-1"; parse_args := Ok args |}.

End World.


(** ** The vocabulary of the properties *)

(** The row is not soft-deleted: [is_delete == 0]. *)
Definition not_deleted {Eng : Engine} (r : record) : bool :=
  pyval_eqb (row_value r "is_delete") (VInt 0).

(** The state in which the session shows the live rows only. *)
Definition live_view {Eng : Engine} (s : db) : db :=
  {| committed := committed s; session := filter (λ r, not_deleted r) (session s) |}.

(** A change of the query of the accumulator of the filter loop. *)
Definition on_query (g : list record → list record)
    (acc : result (list record * arguments)) : result (list record * arguments) :=
  let? acc := acc in Ok (g acc.1, acc.2).

(** No row of the session carries the identifier. *)
Definition missing {Eng : Engine} (id : pyval) (s : db) : Prop :=
  is_none id = true ∨ find (has_id id) (session s) = None.

(** What the decorators leave after a verb that writes. *)
Definition rolled_back (s : db) : db :=
  {| committed := committed s; session := committed s |}.

Definition pagination_keys : list string := ["start"; "number"; "page"; "per_page"].

(** Two argument maps that differ in the pagination keys only. *)
Definition same_filters (a b : arguments) : Prop :=
  ∀ k, name_in k pagination_keys = false → a !! k = b !! k.

(** A query hook that does not read the pagination keys. *)
Definition ignores_pagination
    (hook : option (list record → arguments → result (list record))) : Prop :=
  ∀ f, hook = Some f → ∀ rows a b, same_filters a b → f rows a = f rows b.


(** The step leaves the committed rows as they are. *)
Definition keeps_committed {A} (m : M A) : Prop :=
  ∀ s s' o, m s = (s', o) → committed s' = committed s.

(** The step changes the committed rows only when it runs to its end. *)
Definition commits_last {A} (m : M A) : Prop :=
  ∀ s s' o, m s = (s', o) →
    match o with Next _ => True | _ => committed s' = committed s end.

Create HintDb keeps discriminated.

(** The record with its flag set. *)
Definition flagged (row : record) : record := <["is_delete" := VInt 1]> row.

(** A step that continues has left the session as it was. *)
Definition reads_only {A} (m : M A) : Prop :=
  ∀ s s' a, m s = (s', Next a) → s' = s.

Create HintDb reads discriminated.

(** What the pre-hook of the update hands to the later steps. *)
Definition put_arguments (r : Resource) (rows : list record) (item : pyobj)
    (args : arguments) : result arguments :=
  match put_preprocess_func r with
  | Some hook => let? out := hook rows item args in CommonModelResource.as_args out
  | None => Ok args
  end.

(** The step has no [return] of its own. *)
Definition never_returns {A} (m : M A) : Prop :=
  ∀ s s' resp, m s ≠ (s', Return resp).

Create HintDb noreturn discriminated.


(** ** More of the concrete world *)

Module Fixtures.

(** A model without the soft-delete flag. *)
Definition bare_model : Model :=
  {| m_attrs := ["id"; "name"]; m_defaults := ∅ |}.

Definition bare_row (id : Z) (name : string) : record :=
  {["id" := VInt id; "name" := VStr name]}.

(** The resource with another set of allowed verbs. *)
Definition allowing (verbs : list string) (r : Resource) : Resource :=
  {| ALLOW_METHOD := verbs;
     model := model r;
     get_fields := get_fields r; date_format := date_format r;
     json_load_features := json_load_features r;
     json_dump_features := json_dump_features r;
     put_check_exist_fields := put_check_exist_fields r;
     post_check_exist_fields := post_check_exist_fields r;
     check_item_exist_func := check_item_exist_func r;
     get_preprocess_func := get_preprocess_func r;
     get_query_func := get_query_func r;
     add_query_filter := add_query_filter r;
     add_query_sort := add_query_sort r;
     get_postprocess_func := get_postprocess_func r;
     get_query_data_process_func := get_query_data_process_func r;
     get_process_return_data := get_process_return_data r;
     post_preprocess_func := post_preprocess_func r;
     post_postprocess_func := post_postprocess_func r;
     post_query_data_process_func := post_query_data_process_func r;
     post_process_return_data := post_process_return_data r;
     get_item_by_join_func := get_item_by_join_func r;
     get_item_func := get_item_func r;
     put_preprocess_func := put_preprocess_func r;
     put_postprocess_func := put_postprocess_func r;
     put_query_data_process_func := put_query_data_process_func r;
     put_process_return_data := put_process_return_data r;
     delete_preprocess_func := delete_preprocess_func r;
     delete_postprocess_func := delete_postprocess_func r |}.

(** The resource with a pre-hook on its reads. *)
Definition with_read_pre_hook (hook : list record → arguments → result pyobj)
    (r : Resource) : Resource :=
  {| ALLOW_METHOD := ALLOW_METHOD r;
     model := model r;
     get_fields := get_fields r; date_format := date_format r;
     json_load_features := json_load_features r;
     json_dump_features := json_dump_features r;
     put_check_exist_fields := put_check_exist_fields r;
     post_check_exist_fields := post_check_exist_fields r;
     check_item_exist_func := check_item_exist_func r;
     get_preprocess_func := Some hook;
     get_query_func := get_query_func r;
     add_query_filter := add_query_filter r;
     add_query_sort := add_query_sort r;
     get_postprocess_func := get_postprocess_func r;
     get_query_data_process_func := get_query_data_process_func r;
     get_process_return_data := get_process_return_data r;
     post_preprocess_func := post_preprocess_func r;
     post_postprocess_func := post_postprocess_func r;
     post_query_data_process_func := post_query_data_process_func r;
     post_process_return_data := post_process_return_data r;
     get_item_by_join_func := get_item_by_join_func r;
     get_item_func := get_item_func r;
     put_preprocess_func := put_preprocess_func r;
     put_postprocess_func := put_postprocess_func r;
     put_query_data_process_func := put_query_data_process_func r;
     put_process_return_data := put_process_return_data r;
     delete_preprocess_func := delete_preprocess_func r;
     delete_postprocess_func := delete_postprocess_func r |}.

(** A read that is answered by its pre-hook. *)
Definition guarded : Resource :=
  with_read_pre_hook (λ _ _, Ok (PResp World.prebuilt)) (World.plain World.item_model).

(** A resource that allows the reads only. *)
Definition read_only : Resource :=
  allowing ["GET"] (World.plain World.item_model).

(** An engine on which every call of the storage raises. *)
Definition broken_engine : Engine := World.engine (λ _, Some DbError).

End Fixtures.

(** ** router_version.py and routes_lib.py *)

Module router_version.

(** [get_work_obj(route_dict, version)]: the entry of [version] when it is
    there and truthy, the entry of ["default"] otherwise; [None] stands for
    the [KeyError] of [route_dict["default"]] on a dict without that key.
    [version] is [None] or a [str]. *)
Definition get_work_obj (route_dict : gmap string pyval) (version : option string)
    : option pyval :=
  let version :=
    match version with
    | Some v => if String.eqb v "" then "default" else v
    | None => "default"
    end in
  let val := route_dict !! version in
  let version :=
    match val with
    | Some x => if truthy x then version else "default"
    | None => "default"
    end in
  route_dict !! version.

End router_version.

(** ** The vocabulary of the further properties *)

(** The step leaves the session and the committed rows as they are,
    whatever its outcome. *)
Definition never_writes {A} (m : M A) : Prop :=
  ∀ s s' o, m s = (s', o) → s' = s.

Create HintDb pure discriminated.

(** The filter map the helpers work with: the caller's, with the
    soft-delete entry forced on a model that has the flag. *)
Definition effective_filters (model : Model) (filters : arguments) : arguments :=
  if CommonModelResource.hasattr_model model "is_delete"
  then <["is_delete" := VInt 0]> filters else filters.

(** The row passes every entry of the filter map: the comparison of the
    honoured directive for a dict, equality for any other value. *)
Definition satisfies {Eng : Engine} (r : record) (filters : arguments) : Prop :=
  ∀ k v, filters !! k = Some v →
    match v with
    | VDict d =>
        match CommonModelResource.first_directive d with
        | Some (op, v0) => sql_compare op (row_value r k) v0 = true
        | None => True
        end
    | _ => pyval_eqb (row_value r k) v = true
    end.

(** What the pre-hook of the create hands to the later steps. *)
Definition post_arguments (r : Resource) (rows : list record)
    (args : arguments) : result arguments :=
  match post_preprocess_func r with
  | Some hook => let? out := hook rows args in CommonModelResource.as_args out
  | None => Ok args
  end.

(** The features the serializer goes through for an instance. *)
Definition effective_features {Consts : Constants} (r : record)
    (item_features : list string) : list string :=
  match item_features with
  | [] => filter (λ attr, negb (startswith_underscore attr)
                          && negb (name_in attr DB_QUERY_OBJ_ATTRS))
                 (dir (PRow r))
  | _ => item_features
  end.


(** The envelope a verb outside [ALLOW_METHOD] is answered with. *)
Definition not_allowed {Consts : Constants} (req : Request) (verb : string)
    : result Response :=
  common_func.http_resp FAILED_CODE (verb ++ " method is not allowed") []
    (g_request_id req) 404.

(** * Properties *)

(** ** The pipeline monad *)

Lemma bind_next {A B} (m : M A) (k : A → M B) s s' a :
  m s = (s', Next a) → bind m k s = k a s'.
Proof. intros Hm. unfold bind. by rewrite Hm. Qed.

Lemma bind_throw {A B} (m : M A) (k : A → M B) s s' e :
  m s = (s', Throw e) → bind m k s = (s', Throw e).
Proof. intros Hm. unfold bind. by rewrite Hm. Qed.

Lemma bind_return {A B} (m : M A) (k : A → M B) s s' r :
  m s = (s', Return r) → bind m k s = (s', Return r).
Proof. intros Hm. unfold bind. by rewrite Hm. Qed.

(** What a bind that continued, returned or raised went through. *)
Lemma bind_inv {A B} (m : M A) (k : A → M B) s s' o :
  bind m k s = (s', o) →
  (∃ s1 a, m s = (s1, Next a) ∧ k a s1 = (s', o))
  ∨ (∃ r, m s = (s', Return r) ∧ o = Return r)
  ∨ (∃ e, m s = (s', Throw e) ∧ o = Throw e).
Proof.
  unfold bind. destruct (m s) as [s1 [a|r|e]]; intros Hk.
  - left. eauto.
  - right. left. exists r. by inversion Hk.
  - right. right. exists e. by inversion Hk.
Qed.

(** ** Values *)

Lemma pyval_eqb_eq : ∀ a b, pyval_eqb a b = true → a = b.
Proof.
  fix IH 1. intros [|n|s|l|d] [|m|t|l'|d']; simpl; try discriminate.
  - done.
  - intros Hn. f_equal. by apply Z.eqb_eq.
  - intros Hs. f_equal. by apply String.eqb_eq.
  - intros Hl. f_equal. revert l' Hl.
    induction l as [|x l IHl]; intros [|y l'] Hl; try discriminate; [done|].
    apply andb_prop in Hl as [Hx Hl]. f_equal; [by apply IH | by apply IHl].
  - intros Hd. f_equal. revert d' Hd.
    induction d as [|[k x] d IHd]; intros [|[k' y] d'] Hd; try discriminate; [done|].
    apply andb_prop in Hd as [Hkx Hd]. apply andb_prop in Hkx as [Hk Hx].
    apply String.eqb_eq in Hk. f_equal; [|by apply IHd].
    f_equal; [done | by apply IH].
Qed.

Lemma name_in_elem (s : string) (l : list string) :
  name_in s l = true ↔ s ∈ l.
Proof.
  unfold name_in. rewrite existsb_exists. split.
  - intros (x & Hx & Heq). apply String.eqb_eq in Heq. subst.
    by apply list_elem_of_In.
  - intros Hs. exists s. split; [by apply list_elem_of_In | apply String.eqb_refl].
Qed.

Section common_func_properties.
Context {Consts : Constants} {Codec : JsonCodec}.

(** C1: what [query_data_process] does on every input: the helper is
    called with five positional arguments where its signature takes one,
    so a list with an element and every input that is not a list raise
    [TypeError]; only the empty list yields a result, the empty list. *)
Theorem query_data_process_raises (data : pyobj) (date_format : Z)
    (data_features json_load_features json_dump_features : list string) :
  common_func.query_data_process data date_format data_features
      json_load_features json_dump_features
  = match as_list data with
    | Some [] => Ok (PList [])
    | _ => Raise TypeError
    end.
Proof.
  unfold common_func.query_data_process.
  destruct (as_list data) as [[|item items]|]; reflexivity.
Qed.

(** C7: for a field of the JSON-load subset whose stored value is not
    null, the serializer decodes the name of the field, not the stored
    value: what it emits does not depend on the stored value. *)
Theorem json_load_decodes_field_name (r : record) (feature : string)
    (stored : pyval) (json_load_features json_dump_features : list string)
    (format_result : gmap string pyval) :
  r !! feature = Some stored →
  is_none stored = false →
  name_in feature json_load_features = true →
  process_feature (PRow r) json_load_features json_dump_features
      format_result feature
  = let? decoded := loads_json_str (VStr feature) in
    Ok (<[feature := if name_in feature json_dump_features
                     then dumps_json_str (VStr feature)
                     else decoded]> format_result).
Proof.
  intros Hr Hv Hin. unfold process_feature. simpl. rewrite Hr, Hv, Hin.
  by destruct (loads_json_str (VStr feature)).
Qed.
End common_func_properties.

Section update_properties.
Context {Consts : Constants} {Codec : JsonCodec} {Eng : Engine}.

(** The field assignment loop, attribute by attribute. *)
Lemma put_update_fields_lookup (item : record) (args : arguments)
    (key : string) :
  CommonItemResource.put_update_fields item args !! key
  = match item !! key with
    | Some old => Some (default old (args !! key))
    | None => None
    end.
Proof.
  unfold CommonItemResource.put_update_fields. revert key.
  apply (map_fold_weak_ind (λ (res : record) (m : arguments),
    ∀ key, res !! key = match item !! key with
                        | Some old => Some (default old (m !! key))
                        | None => None
                        end)).
  - intros key. rewrite lookup_empty. by destruct (item !! key).
  - intros i x m res Hi IH key.
    assert (is_Some (res !! i) ↔ is_Some (item !! i)) as Hsome.
    { rewrite IH. destruct (item !! i); [|done]. split; eauto. }
    destruct (decide (i = key)) as [->|Hne].
    + rewrite lookup_insert_eq. case_bool_decide as Hd.
      * rewrite lookup_insert_eq. apply Hsome in Hd as [old ->]. done.
      * rewrite IH. destruct (item !! key) as [old|] eqn:E; [|done].
        exfalso. apply Hd, Hsome. eauto.
    + rewrite (lookup_insert_ne m) by done. case_bool_decide.
      * rewrite lookup_insert_ne by done. apply IH.
      * apply IH.
Qed.
End update_properties.

(** ** The filter helpers and the soft-delete flag *)

Lemma filter_bool_comm {A} (P Q : A → bool) (l : list A) :
  filter (λ x, P x) (filter (λ x, Q x) l) = filter (λ x, Q x) (filter (λ x, P x) l).
Proof.
  induction l as [|x l IH]; [done|].
  rewrite !filter_cons.
  destruct (P x) eqn:HP, (Q x) eqn:HQ; simpl;
    rewrite ?filter_cons, ?HP, ?HQ; simpl; by rewrite IH.
Qed.

Lemma filter_bool_implied {A} (P Q : A → bool) (l : list A) :
  (∀ x, P x = true → Q x = true) →
  filter (λ x, P x) (filter (λ x, Q x) l) = filter (λ x, P x) l.
Proof.
  intros HPQ. induction l as [|x l IH]; [done|].
  rewrite !filter_cons.
  destruct (P x) eqn:HP.
  - rewrite (HPQ x HP). simpl. rewrite filter_cons, HP. simpl. by rewrite IH.
  - destruct (Q x) eqn:HQ; simpl; [rewrite filter_cons, HP; simpl|]; by rewrite IH.
Qed.

Section filter_properties.
Context {Consts : Constants} {Codec : JsonCodec} {Eng : Engine}.
Import CommonModelResource.

(** The loop over the filters: the rows it keeps come from the query it
    started with, and every entry that is not a dict is an equality
    filter. *)
Lemma filters_loop_inv (model : Model) (rows : list record) (filters : arguments) :
  ∀ query equal_filters,
    map_fold (filters_step model) (Ok (rows, ∅)) filters = Ok (query, equal_filters) →
    (∀ r, r ∈ query → r ∈ rows)
    ∧ (∀ k v, filters !! k = Some v → is_dict v = false → equal_filters !! k = Some v).
Proof.
  apply (map_fold_weak_ind (λ (res : result (list record * arguments)) (m : arguments),
    ∀ query equal_filters, res = Ok (query, equal_filters) →
      (∀ r, r ∈ query → r ∈ rows)
      ∧ (∀ k v, m !! k = Some v → is_dict v = false → equal_filters !! k = Some v))).
  - intros query e [= <- <-]. split; [done|]. intros k v. by rewrite lookup_empty.
  - intros i x m res Hi IH query e Hstep.
    destruct res as [[q0 e0]|err]; [|discriminate].
    destruct (IH q0 e0 eq_refl) as [Hsub Heq].
    unfold filters_step in Hstep. simpl in Hstep.
    assert (∀ k v, <[i:=x]> m !! k = Some v → is_dict v = false → k ≠ i →
                   e0 !! k = Some v) as Hold.
    { intros k v Hk Hv Hne. rewrite lookup_insert_ne in Hk by done. by apply Heq. }
    destruct x as [| n | str | l | d];
      try (injection Hstep as <- <-; split; [done|]; intros k v Hk Hv;
           destruct (decide (k = i)) as [->|Hne];
           [rewrite lookup_insert_eq in Hk; injection Hk as <-;
            by rewrite lookup_insert_eq
           |rewrite lookup_insert_ne by done; by apply Hold]).
    unfold _query_filter_other_logic in Hstep.
    destruct (first_directive d) as [[op v0]|].
    + destruct (hasattr_model model i); [|discriminate].
      injection Hstep as <- <-. split.
      * intros r Hr. apply list_elem_of_filter in Hr as [_ Hr]. by apply Hsub.
      * intros k v Hk Hv. destruct (decide (k = i)) as [->|Hne].
        -- rewrite lookup_insert_eq in Hk. injection Hk as <-. discriminate.
        -- by apply Hold.
    + injection Hstep as <- <-. split; [done|].
      intros k v Hk Hv. destruct (decide (k = i)) as [->|Hne].
      * rewrite lookup_insert_eq in Hk. injection Hk as <-. discriminate.
      * by apply Hold.
Qed.

Lemma filters_step_live (model : Model) (field : string) (value : pyval)
    (acc : result (list record * arguments)) :
  filters_step model field value (on_query (filter (λ r, not_deleted r)) acc)
  = on_query (filter (λ r, not_deleted r)) (filters_step model field value acc).
Proof.
  destruct acc as [[q e]|err]; [|done].
  unfold filters_step, on_query. simpl.
  destruct value as [| n | str | l | d]; try done.
  unfold _query_filter_other_logic.
  destruct (first_directive d) as [[op v0]|]; [|done].
  destruct (hasattr_model model field); [|done]. simpl.
  by rewrite (filter_bool_comm (λ r, sql_compare op (row_value r field) v0) not_deleted).
Qed.

Lemma filter_by_live (model : Model) (equal_filters : arguments)
    (query : list record) :
  equal_filters !! "is_delete" = Some (VInt 0) →
  filter_by model equal_filters (filter (λ r, not_deleted r) query)
  = filter_by model equal_filters query.
Proof.
  intros He. unfold filter_by.
  destruct (forallb _ (map_to_list equal_filters)); [|done]. f_equal.
  apply (filter_bool_implied
           (λ r, forallb (λ kv, pyval_eqb (row_value r kv.1) kv.2)
                         (map_to_list equal_filters)) not_deleted).
  intros r Hall. rewrite forallb_forall in Hall.
  apply (Hall ("is_delete", VInt 0)).
  apply list_elem_of_In. by apply elem_of_map_to_list.
Qed.

Lemma filter_by_not_deleted (model : Model) (equal_filters : arguments)
    (query out : list record) :
  equal_filters !! "is_delete" = Some (VInt 0) →
  filter_by model equal_filters query = Ok out →
  ∀ r, r ∈ out → r ∈ query ∧ row_value r "is_delete" = VInt 0.
Proof.
  intros He. unfold filter_by.
  destruct (forallb _ (map_to_list equal_filters)); [|discriminate].
  intros [= <-] r Hr. apply list_elem_of_filter in Hr as [Hall Hr].
  split; [done|]. apply Is_true_true in Hall. rewrite forallb_forall in Hall.
  apply pyval_eqb_eq. apply (Hall ("is_delete", VInt 0)).
  apply list_elem_of_In. by apply elem_of_map_to_list.
Qed.

(** Soft-deleted rows are invisible to the query of the helpers. *)
Lemma filters_query_live (model : Model) (fields : list string)
    (filters : arguments) (rows : list record) :
  hasattr_model model "is_delete" = true →
  filters_query model fields filters (filter (λ r, not_deleted r) rows)
  = filters_query model fields filters rows.
Proof.
  intros Hattr. unfold filters_query. rewrite Hattr.
  change (Ok (filter (λ r, not_deleted r) rows, (∅ : arguments)))
    with (on_query (filter (λ r, not_deleted r)) (Ok (rows, (∅ : arguments)))).
  rewrite (map_fold_comm_acc (filters_step model)
             (on_query (filter (λ r, not_deleted r))))
    by (intros; apply filters_step_live).
  destruct (map_fold _ (Ok (rows, ∅)) _) as [[q e]|err] eqn:Hfold; [|done].
  simpl.
  destruct (filters_loop_inv _ _ _ _ _ Hfold) as [_ Heq].
  assert (e !! "is_delete" = Some (VInt 0)) as He.
  { apply Heq; [by rewrite lookup_insert_eq | done]. }
  destruct (map_to_list e) as [|kv l] eqn:Hl.
  { apply map_to_list_empty_iff in Hl. subst e. by rewrite lookup_empty in He. }
  by rewrite filter_by_live.
Qed.

Lemma filters_query_not_deleted (model : Model) (filters : arguments)
    (rows out : list record) :
  hasattr_model model "is_delete" = true →
  filters_query model [] filters rows = Ok out →
  ∀ r, r ∈ out → r ∈ rows ∧ row_value r "is_delete" = VInt 0.
Proof.
  intros Hattr. unfold filters_query. rewrite Hattr.
  destruct (map_fold _ (Ok (rows, ∅)) _) as [[q e]|err] eqn:Hfold; [|discriminate].
  simpl.
  destruct (filters_loop_inv _ _ _ _ _ Hfold) as [Hsub Heq].
  assert (e !! "is_delete" = Some (VInt 0)) as He.
  { apply Heq; [by rewrite lookup_insert_eq | done]. }
  destruct (map_to_list e) as [|kv l] eqn:Hl.
  { apply map_to_list_empty_iff in Hl. subst e. by rewrite lookup_empty in He. }
  destruct (filter_by model e q) as [q'|] eqn:Hfb; [|discriminate].
  simpl. intros [= <-] r Hr.
  destruct (filter_by_not_deleted _ _ _ _ He Hfb r Hr) as [Hq Hnd].
  split; [by apply Hsub | done].
Qed.

(** C9: on a model with the [is_delete] attribute, whatever filter map
    the caller passes, the three filter helpers answer as if the
    soft-deleted rows were not in the table, and without a projection
    every row they return is a row of the table with [is_delete = 0]. *)
Theorem filter_helpers_force_not_deleted (model : Model) (fields : list string)
    (filters : arguments) (s : db) :
  hasattr_model model "is_delete" = true →
  (get_item_by_filters model fields filters (live_view s)).2
    = (get_item_by_filters model fields filters s).2
  ∧ (get_items_by_filters model fields filters (live_view s)).2
    = (get_items_by_filters model fields filters s).2
  ∧ (get_count_by_filters model fields filters (live_view s)).2
    = (get_count_by_filters model fields filters s).2
  ∧ (∀ out r, (get_items_by_filters model [] filters s).2 = Next out →
       r ∈ out → r ∈ session s ∧ row_value r "is_delete" = VInt 0).
Proof.
  intros Hattr.
  unfold get_item_by_filters, get_items_by_filters, get_count_by_filters,
    bind, get_session, lift, db_call, ret, live_view. simpl.
  rewrite !(filters_query_live model fields filters (session s) Hattr).
  split; [|split; [|split]].
  - destruct (filters_query model fields filters (session s)); [|done].
    by destruct (db_fault Select).
  - destruct (filters_query model fields filters (session s)); [|done].
    by destruct (db_fault Select).
  - destruct (filters_query model fields filters (session s)); [|done].
    by destruct (db_fault Select).
  - intros out r.
    destruct (filters_query model [] filters (session s)) as [q|] eqn:Hq;
      [|done].
    destruct (db_fault Select); [done|]. simpl. intros [= <-].
    by eapply filters_query_not_deleted.
Qed.
End filter_properties.

(** ** The item fetch on a missing record *)

Section fetch_properties.
Context {Consts : Constants} {Codec : JsonCodec} {Eng : Engine}.
Import CommonModelResource.

Lemma query_get_missing (id : pyval) (s : db) :
  db_fault Select = None → missing id s → query_get id s = (s, Next PNone).
Proof.
  intros Hf Hm. unfold query_get, bind, db_call, get_session, ret.
  rewrite Hf. destruct Hm as [-> | ->]; [done|]. by destruct (is_none id).
Qed.

Lemma get_item_missing (r : Resource) (id : pyval) (args : arguments) (s : db) :
  db_fault Select = None → get_item_func r = None → missing id s →
  CommonItemResource.get_item r id args s = (s, Next PNone).
Proof.
  intros Hf Hh Hm. unfold CommonItemResource.get_item. rewrite Hh.
  by rewrite (bind_next _ _ _ _ _ (query_get_missing id s Hf Hm)).
Qed.

Lemma args_not_empty (args : arguments) :
  args ≠ ∅ → ∃ kv l, map_to_list args = kv :: l.
Proof.
  intros Hne. destruct (map_to_list args) as [|kv l] eqn:E; [|eauto].
  by apply map_to_list_empty_iff in E.
Qed.

(** C10: the fetch by identifier is total on a missing record: with the
    storage answering, an identifier that no row carries yields [None]
    from [get_item], and so does a falsy one from [get_item_by_pid], which
    does not even query; item read, update and delete then answer with the
    "not found" envelope under the FAILED code and status 200. *)
Theorem missing_item_is_not_found (r : Resource) (req : Request)
    (id : pyval) (args : arguments) (s : db) :
  db_fault Select = None →
  get_item_func r = None →
  missing id s →
  CommonResource.get_parser_args req = Ok args →
  CommonItemResource.get_item r id args s = (s, Next PNone)
  ∧ (∀ pid, truthy pid = false → get_item_by_pid pid s = (s, Next PNone))
  ∧ get_item_by_pid id s = (s, Next PNone)
  ∧ (name_in "GET" (ALLOW_METHOD r) = true →
     get_preprocess_func r = None → get_item_by_join_func r = None →
     CommonItemResource.get r req id s
     = (s, CommonResource.http_resp req FAILED_CODE MSG_NOT_FOUND [] 200))
  ∧ (name_in "PUT" (ALLOW_METHOD r) = true → args ≠ ∅ →
     CommonItemResource.put r req id s
     = (rolled_back s, CommonResource.http_resp req FAILED_CODE MSG_NOT_FOUND [] 200))
  ∧ (name_in "DELETE" (ALLOW_METHOD r) = true →
     CommonItemResource.delete r req id s
     = (rolled_back s, CommonResource.http_resp req FAILED_CODE MSG_NOT_FOUND [] 200)).
Proof.
  intros Hf Hh Hm Hparse.
  pose proof (get_item_missing r id args s Hf Hh Hm) as Hitem.
  split; [done|]. split; [|split; [|split; [|split]]].
  - intros pid Hpid. unfold get_item_by_pid, bind, ret. by rewrite Hpid.
  - unfold get_item_by_pid. destruct (truthy id).
    + by rewrite (bind_next _ _ _ _ _ (query_get_missing id s Hf Hm)).
    + done.
  - intros Hallow Hpre Hjoin.
    unfold CommonItemResource.get, interface_control.method_control,
      interface_control.access_logger, finish, CommonItemResource.get_handler.
    rewrite Hallow.
    unfold bind at 1. unfold lift at 1. rewrite Hparse.
    unfold bind at 1. unfold try_except, CommonItemResource.get_try.
    rewrite Hpre, Hjoin. unfold bind at 1. unfold ret at 1.
    unfold bind at 1. rewrite Hitem. simpl. done.
  - intros Hallow Hne. destruct (args_not_empty args Hne) as (kv & l & Hl).
    unfold CommonItemResource.put, interface_control.method_control,
      interface_control.access_logger, finish, CommonItemResource.put_handler.
    rewrite Hallow.
    unfold bind at 1. unfold lift at 1. rewrite Hparse, Hl.
    unfold bind at 1. unfold try_except, CommonItemResource.put_try.
    unfold bind at 1. rewrite Hitem. simpl. done.
  - intros Hallow.
    unfold CommonItemResource.delete, interface_control.method_control,
      interface_control.access_logger, finish, CommonItemResource.delete_handler.
    rewrite Hallow.
    unfold bind at 1. unfold lift at 1. rewrite Hparse.
    unfold bind at 1. unfold try_except, CommonItemResource.delete_try.
    unfold bind at 1. rewrite Hitem. simpl. done.
Qed.
End fetch_properties.

(** ** The total of a list read *)

Section total_properties.
Context {Consts : Constants} {Codec : JsonCodec} {Eng : Engine}.
Import CommonModelResource CommonListResource.

Lemma filtered_query_state (r : Resource) (args : arguments) (s s' : db)
    (o : step (list record)) :
  filtered_query r args s = (s', o) → s' = s.
Proof.
  unfold filtered_query, bind, get_session, lift, ret.
  destruct (get_query_func r) as [f|].
  - destruct (f (session s) args) as [q|e]; [|by intros [= <- _]].
    destruct (add_query_filter r) as [g|]; [|by intros [= <- _]].
    destruct (g _ args); by intros [= <- _].
  - destruct (add_query_filter r) as [g|]; [|by intros [= <- _]].
    destruct (g _ args); by intros [= <- _].
Qed.

Lemma filtered_query_same (r : Resource) (args1 args2 : arguments) (s : db) :
  ignores_pagination (get_query_func r) →
  ignores_pagination (add_query_filter r) →
  same_filters args1 args2 →
  filtered_query r args1 s = filtered_query r args2 s.
Proof.
  intros Hq Hf Hsame. unfold filtered_query, bind, get_session, lift, ret.
  destruct (get_query_func r) as [f|] eqn:Ef.
  - rewrite (Hq f eq_refl (session s) args1 args2 Hsame).
    destruct (f (session s) args2) as [q|e]; [|done].
    destruct (add_query_filter r) as [g|] eqn:Eg; [|done].
    by rewrite (Hf g eq_refl _ args1 args2 Hsame).
  - destruct (add_query_filter r) as [g|] eqn:Eg; [|done].
    by rewrite (Hf g eq_refl _ args1 args2 Hsame).
Qed.

(** The total [get_query] stores is the count of the query as filtered,
    before sort and window. *)
Lemma get_query_total (r : Resource) (args : arguments) (s s' : db)
    (total : Z) (query : list record) :
  get_query r args s = (s', Next (total, query)) →
  ∃ filtered, filtered_query r args s = (s, Next filtered)
              ∧ total = Z.of_nat (length filtered).
Proof.
  unfold get_query. intros Hrun.
  destruct (filtered_query r args s) as [s0 o] eqn:Efq.
  pose proof (filtered_query_state _ _ _ _ _ Efq) as ->.
  destruct o as [fq|resp|e].
  - exists fq. split; [done|].
    rewrite (bind_next _ _ _ _ _ Efq) in Hrun.
    unfold get_total in Hrun.
    unfold bind at 1 in Hrun. unfold bind at 1 in Hrun.
    unfold db_call in Hrun. destruct (db_fault Select); [discriminate|].
    unfold ret at 1 in Hrun.
    apply bind_inv in Hrun as [(s1 & q1 & _ & Hrun)|[(x & _ & ?)|(x & _ & ?)]];
      [|discriminate..].
    apply bind_inv in Hrun as [(s2 & q2 & _ & Hrun)|[(x & _ & ?)|(x & _ & ?)]];
      [|discriminate..].
    unfold ret in Hrun. by injection Hrun as _ <- _.
  - rewrite (bind_return _ _ _ _ _ Efq) in Hrun. discriminate.
  - rewrite (bind_throw _ _ _ _ _ Efq) in Hrun. discriminate.
Qed.

(** C5: the total of a list read is the count of the filtered query
    before sort and pagination, and two reads whose arguments differ in
    the pagination keys only, on a resource whose query hooks do not read
    those keys, store the same total. *)
Theorem total_invariant_under_pagination (r : Resource)
    (args1 args2 : arguments) (s s1 s2 : db) (total1 total2 : Z)
    (query1 query2 : list record) :
  ignores_pagination (get_query_func r) →
  ignores_pagination (add_query_filter r) →
  same_filters args1 args2 →
  get_query r args1 s = (s1, Next (total1, query1)) →
  get_query r args2 s = (s2, Next (total2, query2)) →
  total1 = total2
  ∧ ∃ filtered, filtered_query r args1 s = (s, Next filtered)
                ∧ total1 = Z.of_nat (length filtered).
Proof.
  intros Hq Hf Hsame Hrun1 Hrun2.
  destruct (get_query_total _ _ _ _ _ _ Hrun1) as (fq1 & Hfq1 & ->).
  destruct (get_query_total _ _ _ _ _ _ Hrun2) as (fq2 & Hfq2 & ->).
  rewrite (filtered_query_same r args1 args2 s Hq Hf Hsame) in Hfq1.
  rewrite Hfq1 in Hfq2. injection Hfq2 as <-.
  split; [done|]. exists fq1. split; [|done].
  by rewrite (filtered_query_same r args1 args2 s Hq Hf Hsame).
Qed.
End total_properties.

(** ** Writes and the transaction *)

Lemma keeps_ret {A} (a : A) : keeps_committed (ret a).
Proof. by intros s s' o [= <- _]. Qed.

Lemma keeps_lift {A} (m : result A) : keeps_committed (lift m).
Proof. intros s s' o. unfold lift. destruct m; by intros [= <- _]. Qed.

Lemma keeps_early {A} (resp : Response) : keeps_committed (early (A:=A) resp).
Proof. by intros s s' o [= <- _]. Qed.

Lemma keeps_respond {A} (m : result Response) : keeps_committed (respond (A:=A) m).
Proof. intros s s' o. unfold respond. destruct m; by intros [= <- _]. Qed.

Lemma keeps_get_session : keeps_committed get_session.
Proof. by intros s s' o [= <- _]. Qed.

Lemma keeps_set_session (rows : list record) : keeps_committed (set_session rows).
Proof. by intros s s' o [= <- _]. Qed.

Lemma keeps_rollback : keeps_committed rollback.
Proof. by intros s s' o [= <- _]. Qed.

Lemma keeps_db_call {Eng : Engine} (op : db_op) : keeps_committed (db_call op).
Proof. intros s s' o. unfold db_call. destruct (db_fault op); by intros [= <- _]. Qed.

Lemma keeps_bind {A B} (m : M A) (k : A → M B) :
  keeps_committed m → (∀ a, keeps_committed (k a)) → keeps_committed (bind m k).
Proof.
  intros Hm Hk s s' o Hrun.
  apply bind_inv in Hrun as [(s1 & a & Hm1 & Hk1)|[(x & Hm1 & _)|(x & Hm1 & _)]].
  - rewrite (Hk a _ _ _ Hk1). by eapply Hm.
  - by eapply Hm.
  - by eapply Hm.
Qed.

Lemma keeps_if {A} (b : bool) (m1 m2 : M A) :
  keeps_committed m1 → keeps_committed m2 → keeps_committed (if b then m1 else m2).
Proof. by destruct b. Qed.

#[export] Hint Resolve keeps_ret keeps_lift keeps_early keeps_respond keeps_get_session
  keeps_set_session keeps_rollback keeps_db_call keeps_if : keeps.
#[export] Hint Extern 2 (keeps_committed (bind _ _)) =>
  apply keeps_bind; [|intros ?] : keeps.

Lemma commits_last_keeps {A} (m : M A) : keeps_committed m → commits_last m.
Proof. intros Hm s s' o Hrun. destruct o; [done|by eapply Hm..]. Qed.

Lemma commits_last_bind {A B} (m : M A) (k : A → M B) :
  keeps_committed m → (∀ a, commits_last (k a)) → commits_last (bind m k).
Proof.
  intros Hm Hk s s' o Hrun.
  apply bind_inv in Hrun as [(s1 & a & Hm1 & Hk1)|[(x & Hm1 & ->)|(x & Hm1 & ->)]].
  - specialize (Hk a _ _ _ Hk1). destruct o; [done|..];
      rewrite Hk; by eapply Hm.
  - by eapply Hm.
  - by eapply Hm.
Qed.

Lemma commits_last_commit {Eng : Engine} {A} (a : A) : commits_last (commit ;; ret a).
Proof.
  intros s s' o. unfold commit, bind, db_call, ret.
  destruct (db_fault Commit); by intros [= <- <-].
Qed.

Section transaction_properties.
Context {Consts : Constants} {Codec : JsonCodec} {Eng : Engine}.
Import CommonModelResource.

Lemma keeps_query_get (id : pyval) : keeps_committed (query_get id).
Proof. unfold query_get. auto with keeps. Qed.

Lemma keeps_return_if_response (b : bool) (o : pyobj) :
  keeps_committed (return_if_response b o).
Proof. unfold return_if_response. destruct o; auto with keeps. Qed.

Hint Resolve keeps_query_get keeps_return_if_response : keeps.

Lemma keeps_object_hook (b : bool)
    (hook : option (list record → pyobj → arguments → result pyobj))
    (o : pyobj) (args : arguments) :
  keeps_committed (object_hook b hook o args).
Proof. unfold object_hook. destruct hook; auto with keeps. Qed.

Lemma keeps_data_process_step (b : bool) (r : Resource)
    (hook : option (list record → pyobj → arguments → result pyobj))
    (o : pyobj) (args : arguments) :
  keeps_committed (data_process_step b r hook o args).
Proof. unfold data_process_step. destruct hook; auto with keeps. Qed.

Lemma keeps_get_item_by_filters (model : Model) (fields : list string)
    (filters : arguments) :
  keeps_committed (get_item_by_filters model fields filters).
Proof. unfold get_item_by_filters. auto with keeps. Qed.

Hint Resolve keeps_object_hook keeps_data_process_step
  keeps_get_item_by_filters : keeps.

Lemma keeps_check_item_exist (r : Resource) (fields : list string)
    (args : arguments) :
  keeps_committed (check_item_exist r fields args).
Proof.
  unfold check_item_exist. destruct fields; [auto with keeps|].
  destruct (check_item_exist_func r); auto with keeps.
Qed.

Lemma keeps_add_flush (model : Model) (kwargs : record) :
  keeps_committed (add_flush model kwargs).
Proof. unfold add_flush. auto with keeps. Qed.

Lemma keeps_get_item (r : Resource) (id : pyval) (args : arguments) :
  keeps_committed (CommonItemResource.get_item r id args).
Proof.
  unfold CommonItemResource.get_item.
  destruct (get_item_func r); auto with keeps.
Qed.

Lemma keeps_not_found_if_none (req : Request) (item : pyobj) :
  keeps_committed (CommonItemResource.not_found_if_none req item).
Proof. unfold CommonItemResource.not_found_if_none. auto with keeps. Qed.

Lemma keeps_update_item (item : pyobj) (args : arguments) :
  keeps_committed (CommonItemResource.update_item item args).
Proof. unfold CommonItemResource.update_item. destruct item; auto with keeps. Qed.

Lemma keeps_delete_item (item : pyobj) :
  keeps_committed (CommonItemResource.delete_item item).
Proof.
  unfold CommonItemResource.delete_item. destruct item; auto with keeps.
Qed.

Hint Resolve keeps_check_item_exist keeps_add_flush keeps_get_item
  keeps_not_found_if_none keeps_update_item keeps_delete_item : keeps.

Ltac step_keeps :=
  apply commits_last_bind; [try (destruct (_ : option _)); auto 10 with keeps | intros ?].

(** The [try] block of each write touches the committed rows only by its
    last statement, the commit. *)
Lemma post_try_commits_last (r : Resource) (req : Request) (args : arguments) :
  commits_last (CommonListResource.post_try r req args).
Proof.
  unfold CommonListResource.post_try.
  step_keeps. step_keeps.
  apply commits_last_bind.
  { destruct (post_preprocess_func r); auto 10 with keeps. }
  intros args'. do 4 step_keeps. apply commits_last_commit.
Qed.

Lemma put_try_commits_last (r : Resource) (req : Request) (id : pyval)
    (args : arguments) :
  commits_last (CommonItemResource.put_try r req id args).
Proof.
  unfold CommonItemResource.put_try.
  do 3 step_keeps.
  apply commits_last_bind.
  { destruct (put_preprocess_func r); auto 10 with keeps. }
  intros args'. do 2 step_keeps.
  apply commits_last_bind.
  { auto with keeps. }
  intros _. do 4 step_keeps. apply commits_last_commit.
Qed.

Lemma delete_try_commits_last (r : Resource) (req : Request) (id : pyval)
    (args : arguments) :
  commits_last (CommonItemResource.delete_try r req id args).
Proof.
  unfold CommonItemResource.delete_try.
  do 3 step_keeps.
  apply commits_last_bind.
  { destruct (delete_preprocess_func r); auto 10 with keeps. }
  intros args'. do 2 step_keeps.
  intros s s' o. unfold commit, bind, db_call.
  destruct (db_fault Commit); by intros [= <- <-].
Qed.

(** C4: when a step of the [try] block of a create, an update or a
    delete raises, nothing is persisted, the session is rolled back, and
    the answer is the envelope with the FAILED code and the message of the
    operation. *)
Theorem write_exception_rolls_back (r : Resource) (req : Request)
    (id : pyval) (args : arguments) (s s' : db) (e : exn) :
  CommonResource.get_parser_args req = Ok args →
  (name_in "POST" (ALLOW_METHOD r) = true → args ≠ ∅ →
   CommonListResource.post_try r req args s = (s', Throw e) →
   CommonListResource.post r req s
   = (rolled_back s,
      CommonResource.http_resp req FAILED_CODE MSG_CREATE_FAILED [] 200))
  ∧ (name_in "PUT" (ALLOW_METHOD r) = true → args ≠ ∅ →
     CommonItemResource.put_try r req id args s = (s', Throw e) →
     CommonItemResource.put r req id s
     = (rolled_back s,
        CommonResource.http_resp req FAILED_CODE MSG_UPDATE_FAILED [] 200))
  ∧ (name_in "DELETE" (ALLOW_METHOD r) = true →
     CommonItemResource.delete_try r req id args s = (s', Throw e) →
     CommonItemResource.delete r req id s
     = (rolled_back s,
        CommonResource.http_resp req FAILED_CODE MSG_DELETE_FAILED [] 200)).
Proof.
  intros Hparse. split; [|split].
  - intros Hallow Hne Hthrow.
    destruct (args_not_empty args Hne) as (kv & l & Hl).
    pose proof (post_try_commits_last r req args s s' _ Hthrow) as Hc.
    simpl in Hc.
    unfold CommonListResource.post, interface_control.method_control,
      interface_control.access_logger, finish, CommonListResource.post_handler.
    rewrite Hallow.
    unfold bind at 1. unfold lift at 1. rewrite Hparse, Hl.
    unfold bind at 1. unfold try_except. rewrite Hthrow.
    simpl. unfold rolled_back. by rewrite Hc.
  - intros Hallow Hne Hthrow.
    destruct (args_not_empty args Hne) as (kv & l & Hl).
    pose proof (put_try_commits_last r req id args s s' _ Hthrow) as Hc.
    simpl in Hc.
    unfold CommonItemResource.put, interface_control.method_control,
      interface_control.access_logger, finish, CommonItemResource.put_handler.
    rewrite Hallow.
    unfold bind at 1. unfold lift at 1. rewrite Hparse, Hl.
    unfold bind at 1. unfold try_except. rewrite Hthrow.
    simpl. unfold rolled_back. by rewrite Hc.
  - intros Hallow Hthrow.
    pose proof (delete_try_commits_last r req id args s s' _ Hthrow) as Hc.
    simpl in Hc.
    unfold CommonItemResource.delete, interface_control.method_control,
      interface_control.access_logger, finish, CommonItemResource.delete_handler.
    rewrite Hallow.
    unfold bind at 1. unfold lift at 1. rewrite Hparse.
    unfold bind at 1. unfold try_except. rewrite Hthrow.
    simpl. unfold rolled_back. by rewrite Hc.
Qed.
End transaction_properties.

(** ** Soft delete *)

Lemma find_fmap_same {A} (P : A → bool) (g : A → A) (l : list A) :
  (∀ x, P (g x) = P x) → find P (g <$> l) = g <$> find P l.
Proof.
  intros Hg. induction l as [|x l IH]; [done|].
  simpl. rewrite Hg. by destruct (P x).
Qed.

Section soft_delete_properties.
Context {Consts : Constants} {Codec : JsonCodec} {Eng : Engine}.
Import CommonModelResource.

Lemma has_id_flagged (id : pyval) (row : record) :
  has_id id (flagged row) = has_id id row.
Proof. unfold has_id, flagged. by rewrite lookup_insert_ne. Qed.

Lemma has_id_eq (id : pyval) (row : record) :
  has_id id row = true → row !! "id" = Some id.
Proof.
  unfold has_id. destruct (row !! "id") as [v|]; [|done].
  intros Hv. by rewrite (pyval_eqb_eq _ _ Hv).
Qed.

(** Setting the flag of the fetched row: the table after the write. *)
Lemma session_write_flagged (id : pyval) (row : record) (rows : list record) :
  has_id id row = true →
  session_write row (flagged row) rows
  = (λ x, if has_id id x then flagged row else x) <$> rows.
Proof. intros Hid. unfold session_write. by rewrite (has_id_eq _ _ Hid). Qed.

Lemma flagged_rows_find (id : pyval) (row : record) (rows : list record) :
  find (has_id id) rows = Some row →
  find (has_id id) (session_write row (flagged row) rows) = Some (flagged row).
Proof.
  intros Hfind. destruct (find_some _ _ Hfind) as [_ Hid].
  rewrite (session_write_flagged id) by done.
  rewrite find_fmap_same.
  - rewrite Hfind. simpl. by rewrite Hid.
  - intros x. destruct (has_id id x) eqn:Hx; [|done].
    by rewrite has_id_flagged.
Qed.

Lemma flagged_rows_only (id : pyval) (row : record) (rows : list record) (x : record) :
  has_id id row = true →
  x ∈ session_write row (flagged row) rows →
  has_id id x = true → x = flagged row.
Proof.
  intros Hid Hx Hxid. rewrite (session_write_flagged id) in Hx by done.
  apply list_elem_of_fmap in Hx as (y & -> & _).
  destruct (has_id id y) eqn:Hy; [done|congruence].
Qed.

Lemma flagged_is_deleted (row : record) :
  row_value (flagged row) "is_delete" = VInt 1.
Proof. unfold row_value, flagged. by rewrite lookup_insert_eq. Qed.

Lemma object_hook_next (b : bool)
    (hook : option (list record → pyobj → arguments → result pyobj))
    (o o' : pyobj) (args : arguments) (s s' : db) :
  object_hook b hook o args s = (s', Next o') → s' = s.
Proof.
  unfold object_hook, bind, get_session, lift, return_if_response.
  destruct hook as [f|]; [|by intros [= <- _]].
  destruct (f (session s) o args) as [out|e]; [|done].
  destruct out; try by intros [= <- _].
  destruct b; simpl; discriminate.
Qed.

(** A delete that ran to its commit: what it found and what it left. *)
Lemma delete_try_done (r : Resource) (req : Request) (id : pyval)
    (args : arguments) (s s1 : db) :
  get_item_func r = None →
  (∀ row, row ∈ session s → is_Some (row !! "is_delete")) →
  CommonItemResource.delete_try r req id args s = (s1, Next tt) →
  ∃ row, find (has_id id) (session s) = Some row
         ∧ db_fault Select = None
         ∧ s1 = {| committed := session_write row (flagged row) (session s);
                   session := session_write row (flagged row) (session s) |}.
Proof.
  intros Hfetch Hinst. unfold CommonItemResource.delete_try.
  unfold CommonItemResource.get_item. rewrite Hfetch.
  unfold query_get.
  unfold bind at 1. unfold bind at 1. unfold bind at 1. unfold db_call at 1.
  destruct (db_fault Select) eqn:Hsel; [discriminate|].
  unfold bind at 1. unfold get_session at 1. unfold ret at 1. unfold ret at 1.
  destruct (is_none id) eqn:Hnone.
  { simpl. unfold bind. simpl. discriminate. }
  destruct (find (has_id id) (session s)) as [row|] eqn:Hfind; simpl;
    [|unfold bind; simpl; discriminate].
  destruct (truthy (default (VInt 0) (row !! "is_delete"))); simpl;
    [unfold bind; simpl; discriminate|].
  unfold bind at 1. unfold ret at 1.
  unfold bind at 1. unfold CommonItemResource.not_found_if_none at 1.
  simpl is_None. cbv iota. unfold ret at 1.
  intros Hrun. exists row. split; [done|]. split; [done|].
  apply bind_inv in Hrun as [(s2 & args' & Hpre & Hrun)|[(x & _ & ?)|(x & _ & ?)]];
    [|discriminate..].
  assert (s2 = s) as ->.
  { revert Hpre. unfold bind, get_session, lift, return_if_response, as_args, ret.
    destruct (delete_preprocess_func r) as [f|]; [|by intros [= <- _]].
    destruct (f (session s) (PRow row) args) as [out|e]; [|done].
    destruct out; simpl; try discriminate. by intros [= <- _]. }
  assert (hasattr (PRow row) "is_delete" = true) as Hattr.
  { simpl. apply bool_decide_eq_true. apply Hinst.
    apply list_elem_of_In. by apply (find_some _ _ Hfind). }
  unfold CommonItemResource.delete_item in Hrun. rewrite Hattr in Hrun.
  unfold bind at 1 in Hrun. unfold bind at 1 in Hrun. unfold get_session at 1 in Hrun.
  unfold bind at 1 in Hrun. unfold set_session at 1 in Hrun.
  unfold ret at 1 in Hrun.
  apply bind_inv in Hrun as [(s3 & o & Hpost & Hrun)|[(x & _ & ?)|(x & _ & ?)]];
    [|discriminate..].
  apply object_hook_next in Hpost as ->.
  revert Hrun. unfold commit, bind, db_call.
  destruct (db_fault Commit); [discriminate|]. simpl. by intros [= <-].
Qed.

(** C6: on a model with the soft-delete flag, a delete that ran to its
    commit has set [is_delete = 1] on the target and removed no row; the
    record is still found by its identifier in the table, while the item
    fetch answers [None] for it, the default list query does not contain
    it and no filter lookup returns it. *)
Theorem soft_delete_hides_record (r : Resource) (req : Request) (id : pyval)
    (args : arguments) (s s1 : db) :
  session s = committed s →
  get_item_func r = None →
  (∀ row, row ∈ committed s → is_Some (row !! "is_delete")) →
  CommonResource.get_parser_args req = Ok args →
  name_in "DELETE" (ALLOW_METHOD r) = true →
  CommonItemResource.delete_try r req id args s = (s1, Next tt) →
  ∃ row,
    let rows' := session_write row (flagged row) (committed s) in
    let after := {| committed := rows'; session := rows' |} in
    find (has_id id) (committed s) = Some row
    ∧ CommonItemResource.delete r req id s
      = (after, CommonResource.http_resp req SUCCESS_CODE MSG_DELETED
                  [("key", PVal id)] 200)
    ∧ length rows' = length (committed s)
    ∧ find (has_id id) rows' = Some (flagged row)
    ∧ row_value (flagged row) "is_delete" = VInt 1
    ∧ (∀ r2 args2, get_item_func r2 = None →
         CommonItemResource.get_item r2 id args2 after = (after, Next PNone))
    ∧ (∀ r2 args2 query x,
         hasattr_model (model r2) "is_delete" = true →
         get_query_func r2 = None → add_query_filter r2 = None →
         CommonListResource.filtered_query r2 args2 after = (after, Next query) →
         x ∈ query → has_id id x = false)
    ∧ (∀ model2 filters out x,
         hasattr_model model2 "is_delete" = true →
         filters_query model2 [] filters rows' = Ok out →
         x ∈ out → has_id id x = false).
Proof.
  intros Hfresh Hfetch Hinst Hparse Hallow Hrun.
  destruct (delete_try_done r req id args s s1 Hfetch) as (row & Hfind & Hsel & ->);
    [by rewrite Hfresh | done |].
  rewrite Hfresh in *. exists row. cbv zeta.
  destruct (find_some _ _ Hfind) as [_ Hid].
  pose proof (flagged_rows_find id row _ Hfind) as Hfind'.
  split; [done|]. split; [|split; [|split; [|split; [|split; [|split]]]]].
  - unfold CommonItemResource.delete, interface_control.method_control,
      interface_control.access_logger, finish, CommonItemResource.delete_handler.
    rewrite Hallow.
    unfold bind at 1. unfold lift at 1. rewrite Hparse.
    unfold bind at 1. unfold try_except. rewrite Hrun. by simpl.
  - rewrite (session_write_flagged id) by done. apply length_fmap.
  - done.
  - apply flagged_is_deleted.
  - intros r2 args2 Hfetch2. unfold CommonItemResource.get_item. rewrite Hfetch2.
    unfold query_get, bind, db_call, get_session, ret. rewrite Hsel. simpl.
    destruct (is_none id); [done|]. rewrite Hfind'. simpl.
    unfold flagged. by rewrite lookup_insert_eq.
  - intros r2 args2 query x Hattr Hq Hf.
    unfold CommonListResource.filtered_query, bind, get_session, ret.
    rewrite Hq, Hf, Hattr. simpl. intros [= <-] Hx.
    apply list_elem_of_filter in Hx as [Hlive Hx].
    destruct (has_id id x) eqn:Hxid; [|done].
    rewrite (flagged_rows_only id row _ x Hid Hx Hxid) in Hlive.
    by rewrite flagged_is_deleted in Hlive.
  - intros model2 filters out x Hattr Hq Hx.
    destruct (filters_query_not_deleted model2 filters _ out Hattr Hq x Hx)
      as [Hin Hlive].
    destruct (has_id id x) eqn:Hxid; [|done].
    rewrite (flagged_rows_only id row _ x Hid Hin Hxid) in Hlive.
    by rewrite flagged_is_deleted in Hlive.
Qed.
End soft_delete_properties.

(** ** The update of a record *)

Lemma reads_ret {A} (a : A) : reads_only (ret a).
Proof. by intros s s' o [= <- _]. Qed.

Lemma reads_lift {A} (m : result A) : reads_only (lift m).
Proof. intros s s' o. unfold lift. destruct m; by intros [= <- _]. Qed.

Lemma reads_early {A} (resp : Response) : reads_only (early (A:=A) resp).
Proof. by intros s s' o [=]. Qed.

Lemma reads_respond {A} (m : result Response) : reads_only (respond (A:=A) m).
Proof. intros s s' o. unfold respond. by destruct m. Qed.

Lemma reads_get_session : reads_only get_session.
Proof. by intros s s' o [= <- _]. Qed.

Lemma reads_db_call {Eng : Engine} (op : db_op) : reads_only (db_call op).
Proof. intros s s' o. unfold db_call. destruct (db_fault op); by intros [= <- _]. Qed.

Lemma reads_bind {A B} (m : M A) (k : A → M B) :
  reads_only m → (∀ a, reads_only (k a)) → reads_only (bind m k).
Proof.
  intros Hm Hk s s' b Hrun.
  apply bind_inv in Hrun as [(s1 & a & Hm1 & Hk1)|[(x & _ & ?)|(x & _ & ?)]];
    [|discriminate..].
  rewrite (Hk a _ _ _ Hk1). by eapply Hm.
Qed.

Lemma reads_if {A} (b : bool) (m1 m2 : M A) :
  reads_only m1 → reads_only m2 → reads_only (if b then m1 else m2).
Proof. by destruct b. Qed.

#[export] Hint Resolve reads_ret reads_lift reads_early reads_respond
  reads_get_session reads_db_call reads_if : reads.
#[export] Hint Extern 2 (reads_only (bind _ _)) =>
  apply reads_bind; [|intros ?] : reads.

Section update_pipeline_properties.
Context {Consts : Constants} {Codec : JsonCodec} {Eng : Engine}.
Import CommonModelResource.

Lemma reads_return_if_response (b : bool) (o : pyobj) :
  reads_only (return_if_response b o).
Proof.
  unfold return_if_response. destruct o; auto with reads.
  intros s s' a. unfold bind. destruct b; simpl; discriminate.
Qed.

Hint Resolve reads_return_if_response : reads.

Lemma reads_object_hook (b : bool)
    (hook : option (list record → pyobj → arguments → result pyobj))
    (o : pyobj) (args : arguments) :
  reads_only (object_hook b hook o args).
Proof. unfold object_hook. destruct hook; auto with reads. Qed.

Lemma reads_data_process_step (b : bool) (r : Resource)
    (hook : option (list record → pyobj → arguments → result pyobj))
    (o : pyobj) (args : arguments) :
  reads_only (data_process_step b r hook o args).
Proof. unfold data_process_step. destruct hook; auto with reads. Qed.

Lemma reads_check_item_exist (r : Resource) (fields : list string)
    (args : arguments) :
  reads_only (check_item_exist r fields args).
Proof.
  unfold check_item_exist, get_item_by_filters. destruct fields; [auto with reads|].
  destruct (check_item_exist_func r); auto with reads.
Qed.

(** An update that ran to its commit: the row it found, the arguments it
    applied and the table it committed. *)
Lemma put_try_done (r : Resource) (req : Request) (id : pyval)
    (args : arguments) (s s1 : db) (out : pyobj) :
  get_item_func r = None →
  CommonItemResource.put_try r req id args s = (s1, Next out) →
  ∃ row args',
    find (has_id id) (session s) = Some row
    ∧ put_arguments r (session s) (PRow row) args = Ok args'
    ∧ committed s1
      = session_write row (CommonItemResource.put_update_fields row args')
          (session s).
Proof.
  intros Hfetch. unfold CommonItemResource.put_try.
  unfold CommonItemResource.get_item. rewrite Hfetch.
  unfold query_get.
  unfold bind at 1. unfold bind at 1. unfold bind at 1. unfold db_call at 1.
  destruct (db_fault Select) eqn:Hsel; [discriminate|].
  unfold bind at 1. unfold get_session at 1. unfold ret at 1. unfold ret at 1.
  destruct (is_none id) eqn:Hnone.
  { simpl. unfold bind. simpl. discriminate. }
  destruct (find (has_id id) (session s)) as [row|] eqn:Hfind; simpl;
    [|unfold bind; simpl; discriminate].
  destruct (truthy (default (VInt 0) (row !! "is_delete"))); simpl;
    [unfold bind; simpl; discriminate|].
  unfold bind at 1. unfold ret at 1.
  unfold bind at 1. unfold CommonItemResource.not_found_if_none at 1.
  simpl is_None. cbv iota. unfold ret at 1.
  intros Hrun. exists row.
  apply bind_inv in Hrun as [(s2 & args' & Hpre & Hrun)|[(x & _ & ?)|(x & _ & ?)]];
    [|discriminate..].
  exists args'.
  assert (s2 = s ∧ put_arguments r (session s) (PRow row) args = Ok args')
    as [-> Hargs].
  { revert Hpre. unfold put_arguments.
    unfold bind, get_session, lift, return_if_response, as_args, ret.
    destruct (put_preprocess_func r) as [f|]; [|by intros [= <- <-]].
    destruct (f (session s) (PRow row) args) as [o|e]; [|done].
    destruct o; simpl; try discriminate. by intros [= <- <-]. }
  split; [done|]. split; [done|].
  apply bind_inv in Hrun as [(s3 & exist & Hexist & Hrun)|[(x & _ & ?)|(x & _ & ?)]];
    [|discriminate..].
  apply reads_check_item_exist in Hexist as ->.
  apply bind_inv in Hrun as [(s3 & other & Hother & Hrun)|[(x & _ & ?)|(x & _ & ?)]];
    [|discriminate..].
  apply reads_lift in Hother as ->.
  apply bind_inv in Hrun as [(s3 & u & Hdup & Hrun)|[(x & _ & ?)|(x & _ & ?)]];
    [|discriminate..].
  assert (s3 = s) as ->.
  { revert Hdup. apply reads_if; auto with reads. }
  unfold CommonItemResource.update_item in Hrun.
  unfold bind at 1 in Hrun. unfold bind at 1 in Hrun.
  unfold get_session at 1 in Hrun.
  unfold bind at 1 in Hrun. unfold set_session at 1 in Hrun.
  unfold ret at 1 in Hrun.
  apply bind_inv in Hrun as [(s3 & o1 & Hp1 & Hrun)|[(x & _ & ?)|(x & _ & ?)]];
    [|discriminate..].
  apply reads_object_hook in Hp1 as ->.
  apply bind_inv in Hrun as [(s3 & o2 & Hp2 & Hrun)|[(x & _ & ?)|(x & _ & ?)]];
    [|discriminate..].
  apply reads_data_process_step in Hp2 as ->.
  apply bind_inv in Hrun as [(s3 & o3 & Hp3 & Hrun)|[(x & _ & ?)|(x & _ & ?)]];
    [|discriminate..].
  apply reads_object_hook in Hp3 as ->.
  revert Hrun. unfold commit, bind, db_call.
  destruct (db_fault Commit); [discriminate|]. simpl. by intros [= <- _].
Qed.

(** C3: an update that ran to its commit has replaced the row it fetched
    by the row the field assignment yields from the parsed arguments (as
    the pre-hook, if any, handed them on): an attribute whose name is not
    among them keeps its value, an argument whose key names an attribute
    of the record replaces the value, also with [None], and a key that
    names no attribute adds nothing. *)
Theorem update_assigns_parsed_arguments (r : Resource) (req : Request)
    (id : pyval) (args : arguments) (s s1 : db) (out : pyobj) :
  get_item_func r = None →
  CommonItemResource.put_try r req id args s = (s1, Next out) →
  ∃ row args',
    find (has_id id) (session s) = Some row
    ∧ put_arguments r (session s) (PRow row) args = Ok args'
    ∧ committed s1
      = session_write row (CommonItemResource.put_update_fields row args')
          (session s)
    ∧ ∀ key,
        CommonItemResource.put_update_fields row args' !! key
        = match row !! key with
          | Some old => Some (default old (args' !! key))
          | None => None
          end.
Proof.
  intros Hfetch Hrun.
  destruct (put_try_done r req id args s s1 out Hfetch Hrun)
    as (row & args' & Hfind & Hargs & Hcommitted).
  exists row, args'. repeat split; try done.
  intros key. apply put_update_fields_lookup.
Qed.
End update_pipeline_properties.

(** ** Hooks that answer with a response *)

Lemma never_returns_ret {A} (a : A) : never_returns (ret a).
Proof. by intros s s' resp. Qed.

Lemma never_returns_lift {A} (m : result A) : never_returns (lift m).
Proof. intros s s' resp. unfold lift. by destruct m. Qed.

Lemma never_returns_get_session : never_returns get_session.
Proof. by intros s s' resp. Qed.

Lemma never_returns_db_call {Eng : Engine} (op : db_op) : never_returns (db_call op).
Proof. intros s s' resp. unfold db_call. by destruct (db_fault op). Qed.

Lemma never_returns_bind {A B} (m : M A) (k : A → M B) :
  never_returns m → (∀ a, never_returns (k a)) → never_returns (bind m k).
Proof.
  intros Hm Hk s s' resp Hrun.
  apply bind_inv in Hrun as [(s1 & a & _ & Hk1)|[(x & Hm1 & _)|(x & _ & ?)]].
  - by eapply Hk.
  - by eapply Hm.
  - discriminate.
Qed.

#[export] Hint Resolve never_returns_ret never_returns_lift
  never_returns_get_session never_returns_db_call : noreturn.
#[export] Hint Extern 2 (never_returns (bind _ _)) =>
  apply never_returns_bind; [|intros ?] : noreturn.

Section hook_properties.
Context {Consts : Constants} {Codec : JsonCodec} {Eng : Engine}.
Import CommonModelResource.

Lemma never_returns_get_items (r : Resource) (args : arguments) :
  never_returns (CommonListResource.get_items r args).
Proof.
  unfold CommonListResource.get_items, CommonListResource.get_query,
    CommonListResource.filtered_query, CommonListResource.get_total.
  apply never_returns_bind; [|auto with noreturn].
  apply never_returns_bind.
  { apply never_returns_bind; [auto with noreturn|]. intros rows.
    apply never_returns_bind.
    - destruct (get_query_func r); auto with noreturn.
    - intros q. destruct (add_query_filter r); auto with noreturn. }
  intros q. apply never_returns_bind; [auto with noreturn|]. intros total.
  apply never_returns_bind; [|auto with noreturn].
  destruct (add_query_sort r); auto with noreturn.
Qed.

(** C8: the post-hook of the list read is not checked: when it answers
    with a pre-built response, the response is not returned but handed to
    the serialization step, and with the default serializer the read
    answers with the "query failed" envelope. *)
Theorem list_post_hook_response_not_returned (r : Resource) (req : Request)
    (args : arguments) (s : db)
    (hook : list record → pyobj → arguments → result pyobj) (resp : Response) :
  name_in "GET" (ALLOW_METHOD r) = true →
  CommonResource.get_parser_args req = Ok args →
  get_preprocess_func r = None →
  get_postprocess_func r = Some hook →
  (∀ rows items a, hook rows items a = Ok (PResp resp)) →
  get_query_data_process_func r = None →
  (CommonListResource.get r req s).2
  = CommonResource.http_resp req FAILED_CODE MSG_QUERY_FAILED [] 200.
Proof.
  intros Hallow Hparse Hpre Hpost Hhook Hser.
  unfold CommonListResource.get, interface_control.method_control,
    interface_control.access_logger, finish, CommonListResource.get_handler.
  rewrite Hallow.
  unfold bind at 1. unfold lift at 1. rewrite Hparse.
  unfold bind at 1. unfold try_except, CommonListResource.get_try.
  rewrite Hpre, Hpost, Hser.
  unfold bind at 1. unfold ret at 1.
  unfold bind at 1.
  destruct (CommonListResource.get_items r args s) as [s1 [ti|resp'|e]] eqn:Hitems.
  - unfold bind at 1. unfold bind at 1. unfold get_session at 1.
    unfold lift at 1. rewrite Hhook.
    unfold bind at 1. unfold data_process_step, query_data_process.
    rewrite query_data_process_raises. by simpl.
  - by apply never_returns_get_items in Hitems.
  - by simpl.
Qed.
End hook_properties.

(** ** The existence check of a create *)

Section existence_properties.
Context {Consts : Constants} {Codec : JsonCodec} {Eng : Engine}.
Import CommonModelResource.

(** With uniqueness fields declared and no hook of its own, the existence
    check finds nothing, whatever the table holds. *)
Lemma check_item_exist_declared (r : Resource) (field : string)
    (fields : list string) (args : arguments) (s : db) :
  check_item_exist_func r = None →
  check_item_exist r (field :: fields) args s = (s, Next PNone).
Proof. intros Hhook. unfold check_item_exist. by rewrite Hhook. Qed.

(** With no uniqueness field declared, the check is a lookup with no
    filter but the soft-delete one. *)
Lemma check_item_exist_undeclared (r : Resource) (args : arguments) :
  check_item_exist r [] args = get_item_by_filters (model r) [] ∅.
Proof. done. Qed.
End existence_properties.

(** * The properties on the concrete world *)

Module Scenarios.
Import World.
Import CommonModelResource.

#[local] Existing Instance constants.
#[local] Existing Instance codec.
#[local] Existing Instance sound_engine.

(** C1 at a single record and at a list of one record. *)
Example query_data_process_one_record :
  common_func.query_data_process (PRow (row 1 "a" 0)) 1 [] [] [] = Raise TypeError
  ∧ common_func.query_data_process (PList [PRow (row 1 "a" 0)]) 1 [] [] []
    = Raise TypeError
  ∧ common_func.query_data_process (PVal VNone) 1 [] [] [] = Raise TypeError
  ∧ common_func.query_data_process (PList []) 1 [] [] [] = Ok (PList []).
Proof. by rewrite !query_data_process_raises. Qed.

(** C7 at a record whose [tags] column holds the JSON text of the empty
    list: the name is decoded, which is not JSON, where the stored value
    decodes to the empty list. *)
Lemma json_load_decodes_field_name_witness :
  process_feature (PRow {["tags" := VStr "[]"]}) ["tags"] [] ∅ "tags"
    = Raise JSONDecodeError
  ∧ loads_json_str (VStr "[]") = Ok (VList []).
Proof.
  split; [|reflexivity].
  rewrite (json_load_decodes_field_name _ "tags" (VStr "[]") ["tags"] [] ∅);
    reflexivity.
Defined.

(** C2: the same create twice on a resource that declares [name] unique:
    both succeed and two records are persisted. *)
Theorem duplicate_create_is_not_rejected :
  let req := request {["name" := VStr "a"]} in
  let first := CommonListResource.post unique_name req (fresh []) in
  let second := CommonListResource.post unique_name req first.1 in
  outcome first.2 = Some (1, MSG_CREATED)
  ∧ outcome second.2 = Some (1, MSG_CREATED)
  ∧ committed second.1 = [row 1 "a" 0; row 2 "a" 0].
Proof. vm_compute. done. Qed.

(** C2 with the default serializer: the create itself fails and nothing
    is persisted. *)
Example create_with_default_serializer :
  let req := request {["name" := VStr "a"]} in
  let first :=
    CommonListResource.post (custom item_model ["name"] [] None None None)
      req (fresh []) in
  outcome first.2 = Some (0, MSG_CREATE_FAILED) ∧ committed first.1 = [].
Proof. vm_compute. done. Qed.

(** C3 at an update of row 1 with a new name and a key that names no
    attribute. *)
Lemma update_assigns_parsed_arguments_witness :
  ∃ target args',
    find (has_id (VInt 1)) [row 1 "a" 0; row 2 "b" 0] = Some target
    ∧ put_arguments updatable [row 1 "a" 0; row 2 "b" 0]
        (PRow target) {["name" := VStr "c"; "ghost" := VInt 9]} = Ok args'
    ∧ [{["id" := VInt 1; "name" := VStr "c"; "note" := VNone;
         "is_delete" := VInt 0]}; row 2 "b" 0]
      = session_write target (CommonItemResource.put_update_fields target args')
          [row 1 "a" 0; row 2 "b" 0]
    ∧ ∀ key,
        CommonItemResource.put_update_fields target args' !! key
        = match target !! key with
          | Some old => Some (default old (args' !! key))
          | None => None
          end.
Proof.
  eapply (update_assigns_parsed_arguments updatable (request ∅) (VInt 1)
            {["name" := VStr "c"; "ghost" := VInt 9]}
            (fresh [row 1 "a" 0; row 2 "b" 0])
            {| committed := [{["id" := VInt 1; "name" := VStr "c";
                               "note" := VNone; "is_delete" := VInt 0]};
                             row 2 "b" 0];
               session := [{["id" := VInt 1; "name" := VStr "c";
                             "note" := VNone; "is_delete" := VInt 0]};
                           row 2 "b" 0] |}).
  - reflexivity.
  - vm_compute. reflexivity.
Defined.

(** C4 at a delete whose commit the storage refuses, and at a create on
    which the default serializer raises. *)
Lemma write_exception_rolls_back_witness :
  CommonItemResource.delete (Eng := engine commit_fault)
    (plain item_model) (request ∅) (VInt 1) (fresh [row 1 "a" 0])
  = (fresh [row 1 "a" 0],
     Ok {| code := 0; message := MSG_DELETE_FAILED; data := VDict [];
           request_id := Some "req-1"; status_code := 200 |})
  ∧ CommonListResource.post (custom item_model ["name"] [] None None None)
      (request {["name" := VStr "a"]}) (fresh [row 1 "a" 0])
    = (fresh [row 1 "a" 0],
       Ok {| code := 0; message := MSG_CREATE_FAILED; data := VDict [];
             request_id := Some "req-1"; status_code := 200 |}).
Proof.
  split.
  - refine (proj2 (proj2
      (write_exception_rolls_back (Eng := engine commit_fault)
         (plain item_model) (request ∅) (VInt 1) ∅ (fresh [row 1 "a" 0])
         {| committed := [row 1 "a" 0]; session := [flagged (row 1 "a" 0)] |}
         DbError eq_refl)) eq_refl _).
    vm_compute. reflexivity.
  - refine (proj1
      (write_exception_rolls_back (custom item_model ["name"] [] None None None)
         (request {["name" := VStr "a"]}) (VInt 1) {["name" := VStr "a"]}
         (fresh [row 1 "a" 0])
         {| committed := [row 1 "a" 0];
            session := [row 1 "a" 0; row 2 "a" 0] |}
         TypeError _) eq_refl _ _).
    + vm_compute. reflexivity.
    + intros Hempty. by apply (f_equal (λ m : arguments, m !! "name")) in Hempty.
    + vm_compute. reflexivity.
Defined.

(** C5 at two reads of the second and of the first page of the rows
    named [a]. *)
Lemma total_invariant_under_pagination_witness :
  let rows := [row 1 "a" 0; row 2 "b" 0; row 3 "a" 0; row 4 "a" 1] in
  let args1 : arguments :=
    {["name" := VStr "a"; "page" := VInt 1; "per_page" := VInt 1]} in
  let args2 : arguments := <["page" := VInt 2]> args1 in
  CommonListResource.get_query filtered_by_name args1 (fresh rows)
    = (fresh rows, Next (2, [row 1 "a" 0]))
  ∧ CommonListResource.get_query filtered_by_name args2 (fresh rows)
    = (fresh rows, Next (2, [row 3 "a" 0]))
  ∧ (2 = 2
     ∧ ∃ filtered,
         CommonListResource.filtered_query filtered_by_name args1 (fresh rows)
           = (fresh rows, Next filtered)
         ∧ 2 = Z.of_nat (length filtered)).
Proof.
  intros rows args1 args2.
  assert (CommonListResource.get_query filtered_by_name args1 (fresh rows)
          = (fresh rows, Next (2, [row 1 "a" 0]))) as Hrun1
    by (vm_compute; reflexivity).
  assert (CommonListResource.get_query filtered_by_name args2 (fresh rows)
          = (fresh rows, Next (2, [row 3 "a" 0]))) as Hrun2
    by (vm_compute; reflexivity).
  split; [exact Hrun1|]. split; [exact Hrun2|].
  apply (total_invariant_under_pagination filtered_by_name args1 args2
           (fresh rows) (fresh rows) (fresh rows) 2 2
           [row 1 "a" 0] [row 3 "a" 0]); [| | |exact Hrun1|exact Hrun2].
  - intros f Hf. discriminate Hf.
  - intros f [= <-] query a b Hsame. unfold name_filter.
    by rewrite (Hsame "name" eq_refl).
  - intros k Hk. unfold args2. rewrite lookup_insert_ne; [done|].
    intros <-. discriminate Hk.
Defined.

(** C6 at the delete of row 1 of two. *)
Lemma soft_delete_hides_record_witness :
  ∃ target,
    let rows' := session_write target (flagged target) [row 1 "a" 0; row 2 "b" 0] in
    let after := {| committed := rows'; session := rows' |} in
    find (has_id (VInt 1)) [row 1 "a" 0; row 2 "b" 0] = Some target
    ∧ CommonItemResource.delete (plain item_model) (request ∅) (VInt 1)
        (fresh [row 1 "a" 0; row 2 "b" 0])
      = (after, CommonResource.http_resp (request ∅) SUCCESS_CODE MSG_DELETED
                  [("key", PVal (VInt 1))] 200)
    ∧ length rows' = length [row 1 "a" 0; row 2 "b" 0]
    ∧ find (has_id (VInt 1)) rows' = Some (flagged target)
    ∧ row_value (flagged target) "is_delete" = VInt 1
    ∧ (∀ r2 args2, get_item_func r2 = None →
         CommonItemResource.get_item r2 (VInt 1) args2 after = (after, Next PNone))
    ∧ (∀ r2 args2 query x,
         hasattr_model (model r2) "is_delete" = true →
         get_query_func r2 = None → add_query_filter r2 = None →
         CommonListResource.filtered_query r2 args2 after = (after, Next query) →
         x ∈ query → has_id (VInt 1) x = false)
    ∧ (∀ model2 filters out x,
         hasattr_model model2 "is_delete" = true →
         filters_query model2 [] filters rows' = Ok out →
         x ∈ out → has_id (VInt 1) x = false).
Proof.
  eapply (soft_delete_hides_record (plain item_model) (request ∅) (VInt 1) ∅
            (fresh [row 1 "a" 0; row 2 "b" 0]) _ eq_refl eq_refl).
  - intros x Hx. simpl in Hx.
    apply elem_of_cons in Hx as [->|Hx]; [by eexists|].
    apply elem_of_cons in Hx as [->|Hx]; [by eexists|].
    by apply elem_of_nil in Hx.
  - reflexivity.
  - reflexivity.
  - vm_compute. reflexivity.
Defined.

(** C8 at a list read whose post-hook answers with a response of its
    own: the read answers with the failure envelope instead. *)
Lemma list_post_hook_response_not_returned_witness :
  (CommonListResource.get short_circuit (request ∅) (fresh [row 1 "a" 0])).2
    = Ok {| code := 0; message := MSG_QUERY_FAILED; data := VDict [];
            request_id := Some "req-1"; status_code := 200 |}
  ∧ (CommonListResource.get short_circuit (request ∅) (fresh [row 1 "a" 0])).2
    ≠ Ok prebuilt.
Proof.
  assert ((CommonListResource.get short_circuit (request ∅) (fresh [row 1 "a" 0])).2
          = CommonResource.http_resp (request ∅) FAILED_CODE MSG_QUERY_FAILED [] 200)
    as Hget.
  { by apply (list_post_hook_response_not_returned short_circuit (request ∅) ∅
                (fresh [row 1 "a" 0]) (λ _ _ _, Ok (PResp prebuilt)) prebuilt). }
  split; [exact Hget|]. rewrite Hget. discriminate.
Defined.

(** C9 at a caller that asks for the soft-deleted rows. *)
Lemma filter_helpers_force_not_deleted_witness :
  let s := fresh [row 1 "a" 0; row 2 "b" 1] in
  let filters : arguments := {["is_delete" := VInt 1]} in
  hasattr_model item_model "is_delete" = true
  ∧ (get_item_by_filters item_model [] filters (live_view s)).2
    = (get_item_by_filters item_model [] filters s).2
  ∧ (get_items_by_filters item_model [] filters (live_view s)).2
    = (get_items_by_filters item_model [] filters s).2
  ∧ (get_count_by_filters item_model [] filters (live_view s)).2
    = (get_count_by_filters item_model [] filters s).2
  ∧ (∀ out r, (get_items_by_filters item_model [] filters s).2 = Next out →
       r ∈ out → r ∈ session s ∧ row_value r "is_delete" = VInt 0).
Proof.
  intros s filters. split; [reflexivity|].
  by apply (filter_helpers_force_not_deleted item_model [] filters s).
Defined.

Example filter_helpers_on_deleted_rows :
  let s := fresh [row 1 "a" 0; row 2 "b" 1] in
  (get_items_by_filters item_model [] {["is_delete" := VInt 1]} s).2
    = Next [row 1 "a" 0]
  ∧ (get_count_by_filters item_model [] {["is_delete" := VInt 1]} s).2 = Next 1.
Proof. vm_compute. done. Qed.

(** C10 at an identifier no row carries. *)
Lemma missing_item_is_not_found_witness :
  let s := fresh [row 1 "a" 0] in
  let req := request {["name" := VStr "x"]} in
  let not_found :=
    Ok {| code := 0; message := MSG_NOT_FOUND; data := VDict [];
          request_id := Some "req-1"; status_code := 200 |} in
  CommonItemResource.get_item (plain item_model) (VInt 7) {["name" := VStr "x"]} s
    = (s, Next PNone)
  ∧ get_item_by_pid (VInt 0) s = (s, Next PNone)
  ∧ CommonItemResource.get (plain item_model) req (VInt 7) s = (s, not_found)
  ∧ CommonItemResource.put (plain item_model) req (VInt 7) s = (s, not_found)
  ∧ CommonItemResource.delete (plain item_model) req (VInt 7) s = (s, not_found).
Proof.
  intros s req not_found.
  destruct (missing_item_is_not_found (Consts := constants) (Codec := codec)
              (Eng := sound_engine) (plain item_model) req (VInt 7)
              {["name" := VStr "x"]} s eq_refl eq_refl)
    as (Hitem & Hpid & _ & Hget & Hput & Hdel).
  - right. reflexivity.
  - vm_compute. reflexivity.
  - split; [exact Hitem|]. split; [by apply Hpid|].
    split; [by apply Hget|]. split.
    + apply Hput; [reflexivity|].
      intros Hempty. by apply (f_equal (λ m : arguments, m !! "name")) in Hempty.
    + by apply Hdel.
Defined.
End Scenarios.

(** * Further properties of the pipeline *)

(** ** Reads *)

Lemma never_writes_ret {A} (a : A) : never_writes (ret a).
Proof. by intros s s' o [= <- _]. Qed.

Lemma never_writes_lift {A} (m : result A) : never_writes (lift m).
Proof. intros s s' o. unfold lift. destruct m; by intros [= <- _]. Qed.

Lemma never_writes_early {A} (resp : Response) : never_writes (early (A:=A) resp).
Proof. by intros s s' o [= <- _]. Qed.

Lemma never_writes_respond {A} (m : result Response) :
  never_writes (respond (A:=A) m).
Proof. intros s s' o. unfold respond. destruct m; by intros [= <- _]. Qed.

Lemma never_writes_get_session : never_writes get_session.
Proof. by intros s s' o [= <- _]. Qed.

Lemma never_writes_db_call {Eng : Engine} (op : db_op) : never_writes (db_call op).
Proof. intros s s' o. unfold db_call. destruct (db_fault op); by intros [= <- _]. Qed.

Lemma never_writes_bind {A B} (m : M A) (k : A → M B) :
  never_writes m → (∀ a, never_writes (k a)) → never_writes (bind m k).
Proof.
  intros Hm Hk s s' o Hrun.
  apply bind_inv in Hrun as [(s1 & a & Hm1 & Hk1)|[(x & Hm1 & _)|(x & Hm1 & _)]].
  - rewrite (Hk a _ _ _ Hk1). by eapply Hm.
  - by eapply Hm.
  - by eapply Hm.
Qed.

Lemma never_writes_if {A} (b : bool) (m1 m2 : M A) :
  never_writes m1 → never_writes m2 → never_writes (if b then m1 else m2).
Proof. by destruct b. Qed.

Lemma never_writes_try_except {A} (body handler : M A) :
  never_writes body → never_writes handler → never_writes (try_except body handler).
Proof.
  intros Hb Hh s s' o. unfold try_except.
  destruct (body s) as [s1 [a|resp|e]] eqn:Hbody.
  - intros [= <- _]. by eapply Hb.
  - intros [= <- _]. by eapply Hb.
  - intros Hrun. rewrite (Hh _ _ _ Hrun). by eapply Hb.
Qed.

#[export] Hint Resolve never_writes_ret never_writes_lift never_writes_early
  never_writes_respond never_writes_get_session never_writes_db_call
  never_writes_if : pure.
#[export] Hint Extern 2 (never_writes (bind _ _)) =>
  apply never_writes_bind; [|intros ?] : pure.
#[export] Hint Extern 2 (never_writes (try_except _ _)) =>
  apply never_writes_try_except : pure.

Section read_properties.
Context {Consts : Constants} {Codec : JsonCodec} {Eng : Engine}.
Import CommonModelResource.

Lemma never_writes_return_if_response (o : pyobj) :
  never_writes (return_if_response false o).
Proof. unfold return_if_response. destruct o; auto with pure. Qed.

Hint Resolve never_writes_return_if_response : pure.

Lemma never_writes_object_hook
    (hook : option (list record → pyobj → arguments → result pyobj))
    (o : pyobj) (args : arguments) :
  never_writes (object_hook false hook o args).
Proof. unfold object_hook. destruct hook; auto with pure. Qed.

Lemma never_writes_data_process_step (r : Resource)
    (hook : option (list record → pyobj → arguments → result pyobj))
    (o : pyobj) (args : arguments) :
  never_writes (data_process_step false r hook o args).
Proof. unfold data_process_step. destruct hook; auto with pure. Qed.

Lemma never_writes_get_item (r : Resource) (id : pyval) (args : arguments) :
  never_writes (CommonItemResource.get_item r id args).
Proof.
  unfold CommonItemResource.get_item, query_get.
  destruct (get_item_func r); auto 10 with pure.
Qed.

Lemma never_writes_get_items (r : Resource) (args : arguments) :
  never_writes (CommonListResource.get_items r args).
Proof.
  unfold CommonListResource.get_items, CommonListResource.get_query,
    CommonListResource.filtered_query, CommonListResource.get_total.
  apply never_writes_bind; [|auto with pure].
  apply never_writes_bind.
  { apply never_writes_bind; [auto with pure|]. intros rows.
    apply never_writes_bind.
    - destruct (get_query_func r); auto with pure.
    - intros q. destruct (add_query_filter r); auto with pure. }
  intros q. apply never_writes_bind; [auto with pure|]. intros total.
  apply never_writes_bind; [|auto with pure].
  destruct (add_query_sort r); auto with pure.
Qed.

Hint Resolve never_writes_object_hook never_writes_data_process_step
  never_writes_get_item never_writes_get_items : pure.

Lemma never_writes_list_get_try (r : Resource) (args : arguments) :
  never_writes (CommonListResource.get_try r args).
Proof.
  unfold CommonListResource.get_try.
  apply never_writes_bind.
  { destruct (get_preprocess_func r); auto 10 with pure. }
  intros args'. apply never_writes_bind; [auto with pure|]. intros ti.
  apply never_writes_bind.
  { destruct (get_postprocess_func r); auto with pure. }
  auto 10 with pure.
Qed.

Lemma never_writes_item_get_try (r : Resource) (req : Request) (id : pyval)
    (args : arguments) :
  never_writes (CommonItemResource.get_try r req id args).
Proof.
  unfold CommonItemResource.get_try, CommonItemResource.not_found_if_none.
  apply never_writes_bind.
  { destruct (get_preprocess_func r); auto 10 with pure. }
  intros args'. apply never_writes_bind.
  { destruct (get_item_by_join_func r); auto with pure. }
  auto 10 with pure.
Qed.

Lemma never_writes_list_get_handler (r : Resource) (req : Request) :
  never_writes (CommonListResource.get_handler r req).
Proof.
  unfold CommonListResource.get_handler.
  pose proof (never_writes_list_get_try r). auto 10 with pure.
Qed.

Lemma never_writes_item_get_handler (r : Resource) (req : Request) (id : pyval) :
  never_writes (CommonItemResource.get_handler r req id).
Proof.
  unfold CommonItemResource.get_handler.
  pose proof (never_writes_item_get_try r req id). auto 10 with pure.
Qed.

(** X1: the two reads leave the storage as they found it, the committed
    rows and the session alike, whatever the request, the hooks and the
    storage do. *)
Theorem reads_never_write (r : Resource) (req : Request) (id : pyval) (s : db) :
  (CommonListResource.get r req s).1 = s
  ∧ (CommonItemResource.get r req id s).1 = s.
Proof.
  split.
  - unfold CommonListResource.get, interface_control.method_control,
      interface_control.access_logger, finish.
    destruct (name_in "GET" (ALLOW_METHOD r)); [|done].
    destruct (CommonListResource.get_handler r req s) as [s' o] eqn:Hrun.
    apply never_writes_list_get_handler in Hrun as ->. by destruct o.
  - unfold CommonItemResource.get, interface_control.method_control,
      interface_control.access_logger, finish.
    destruct (name_in "GET" (ALLOW_METHOD r)); [|done].
    destruct (CommonItemResource.get_handler r req id s) as [s' o] eqn:Hrun.
    apply never_writes_item_get_handler in Hrun as ->. by destruct o.
Qed.

(** X2: an exception in the [try] block of a read, of a hook, of the
    storage or of the serializer, is answered with the "query failed"
    envelope under the FAILED code and status 200. *)
Theorem read_exception_is_query_failed (r : Resource) (req : Request)
    (id : pyval) (args : arguments) (s s' : db) (e : exn) :
  name_in "GET" (ALLOW_METHOD r) = true →
  CommonResource.get_parser_args req = Ok args →
  (CommonListResource.get_try r args s = (s', Throw e) →
   CommonListResource.get r req s
   = (s, CommonResource.http_resp req FAILED_CODE MSG_QUERY_FAILED [] 200))
  ∧ (CommonItemResource.get_try r req id args s = (s', Throw e) →
     CommonItemResource.get r req id s
     = (s, CommonResource.http_resp req FAILED_CODE MSG_QUERY_FAILED [] 200)).
Proof.
  intros Hallow Hparse. split; intros Hthrow.
  - pose proof (never_writes_list_get_try _ _ _ _ _ Hthrow) as ->.
    unfold CommonListResource.get, interface_control.method_control,
      interface_control.access_logger, finish, CommonListResource.get_handler.
    rewrite Hallow.
    unfold bind at 1. unfold lift at 1. rewrite Hparse.
    unfold bind at 1. unfold try_except. rewrite Hthrow. by simpl.
  - pose proof (never_writes_item_get_try _ _ _ _ _ _ _ Hthrow) as ->.
    unfold CommonItemResource.get, interface_control.method_control,
      interface_control.access_logger, finish, CommonItemResource.get_handler.
    rewrite Hallow.
    unfold bind at 1. unfold lift at 1. rewrite Hparse.
    unfold bind at 1. unfold try_except. rewrite Hthrow. by simpl.
Qed.

(** X3: the pre-hook of a read that answers with a response of its own
    ends the read at once: the response is returned as it is and the
    storage is not called, so this holds whatever the storage would do. *)
Theorem read_pre_hook_response_is_returned (r : Resource) (req : Request)
    (id : pyval) (args : arguments) (s : db)
    (hook : list record → arguments → result pyobj) (resp : Response) :
  name_in "GET" (ALLOW_METHOD r) = true →
  CommonResource.get_parser_args req = Ok args →
  get_preprocess_func r = Some hook →
  hook (session s) args = Ok (PResp resp) →
  CommonListResource.get r req s = (s, Ok resp)
  ∧ CommonItemResource.get r req id s = (s, Ok resp).
Proof.
  intros Hallow Hparse Hpre Hhook. split.
  - unfold CommonListResource.get, interface_control.method_control,
      interface_control.access_logger, finish, CommonListResource.get_handler.
    rewrite Hallow.
    unfold bind at 1. unfold lift at 1. rewrite Hparse.
    unfold bind at 1. unfold try_except, CommonListResource.get_try.
    rewrite Hpre.
    unfold bind at 1. unfold bind at 1. unfold bind at 1. unfold get_session at 1.
    unfold bind at 1. unfold lift at 1. rewrite Hhook. by simpl.
  - unfold CommonItemResource.get, interface_control.method_control,
      interface_control.access_logger, finish, CommonItemResource.get_handler.
    rewrite Hallow.
    unfold bind at 1. unfold lift at 1. rewrite Hparse.
    unfold bind at 1. unfold try_except, CommonItemResource.get_try.
    rewrite Hpre.
    unfold bind at 1. unfold bind at 1. unfold bind at 1. unfold get_session at 1.
    unfold bind at 1. unfold lift at 1. rewrite Hhook. by simpl.
Qed.

(** X4: the post-hook of the item read is checked, unlike the one of the
    list read: when it answers with a response of its own for the record
    that was fetched, the read returns that response. *)
Theorem item_post_hook_response_is_returned (r : Resource) (req : Request)
    (id : pyval) (args : arguments) (s : db) (row : record)
    (hook : list record → pyobj → arguments → result pyobj) (resp : Response) :
  name_in "GET" (ALLOW_METHOD r) = true →
  CommonResource.get_parser_args req = Ok args →
  get_preprocess_func r = None →
  get_item_by_join_func r = None →
  CommonItemResource.get_item r id args s = (s, Next (PRow row)) →
  get_postprocess_func r = Some hook →
  hook (session s) (PRow row) args = Ok (PResp resp) →
  CommonItemResource.get r req id s = (s, Ok resp).
Proof.
  intros Hallow Hparse Hpre Hjoin Hitem Hpost Hhook.
  unfold CommonItemResource.get, interface_control.method_control,
    interface_control.access_logger, finish, CommonItemResource.get_handler.
  rewrite Hallow.
  unfold bind at 1. unfold lift at 1. rewrite Hparse.
  unfold bind at 1. unfold try_except, CommonItemResource.get_try.
  rewrite Hpre, Hjoin, Hpost.
  unfold bind at 1. unfold ret at 1.
  unfold bind at 1. rewrite Hitem.
  cbv beta iota delta [bind return_if_response CommonItemResource.not_found_if_none
    object_hook get_session lift ret is_None].
  rewrite Hhook. by simpl.
Qed.
End read_properties.

(** ** What an endpoint hands to the transport *)




Section transport_properties.
Context {Consts : Constants} {Codec : JsonCodec} {Eng : Engine}.
Import CommonModelResource.






(** X6: a verb that is not a key of [ALLOW_METHOD] is answered with the
    404 envelope that names it, before the arguments are parsed and with the
    storage untouched. *)
Theorem undeclared_verb_is_rejected (r : Resource) (req : Request)
    (id : pyval) (s : db) :
  (name_in "GET" (ALLOW_METHOD r) = false →
   CommonListResource.get r req s = (s, not_allowed req "GET")
   ∧ CommonItemResource.get r req id s = (s, not_allowed req "GET"))
  ∧ (name_in "POST" (ALLOW_METHOD r) = false →
     CommonListResource.post r req s = (s, not_allowed req "POST"))
  ∧ (name_in "PUT" (ALLOW_METHOD r) = false →
     CommonItemResource.put r req id s = (s, not_allowed req "PUT"))
  ∧ (name_in "DELETE" (ALLOW_METHOD r) = false →
     CommonItemResource.delete r req id s = (s, not_allowed req "DELETE")).
Proof.
  unfold CommonListResource.get, CommonItemResource.get, CommonListResource.post,
    CommonItemResource.put, CommonItemResource.delete,
    interface_control.method_control, not_allowed.
  split; [intros ->; by split|].
  split; [by intros ->|]. split; by intros ->.
Qed.

(** X7: a write whose [try] block returns a response before the commit,
    the answer of a business check or of a hook, delivers that response as
    it is, persists nothing and leaves no pending change. *)
Theorem write_early_return_persists_nothing (r : Resource) (req : Request)
    (id : pyval) (args : arguments) (s s' : db) (resp : Response) :
  CommonResource.get_parser_args req = Ok args →
  (name_in "POST" (ALLOW_METHOD r) = true → args ≠ ∅ →
   CommonListResource.post_try r req args s = (s', Return resp) →
   CommonListResource.post r req s = (rolled_back s, Ok resp))
  ∧ (name_in "PUT" (ALLOW_METHOD r) = true → args ≠ ∅ →
     CommonItemResource.put_try r req id args s = (s', Return resp) →
     CommonItemResource.put r req id s = (rolled_back s, Ok resp))
  ∧ (name_in "DELETE" (ALLOW_METHOD r) = true →
     CommonItemResource.delete_try r req id args s = (s', Return resp) →
     CommonItemResource.delete r req id s = (rolled_back s, Ok resp)).
Proof.
  intros Hparse. split; [|split].
  - intros Hallow Hne Hret.
    destruct (args_not_empty args Hne) as (kv & l & Hl).
    pose proof (post_try_commits_last r req args s s' _ Hret) as Hc.
    simpl in Hc.
    unfold CommonListResource.post, interface_control.method_control,
      interface_control.access_logger, finish, CommonListResource.post_handler.
    rewrite Hallow.
    unfold bind at 1. unfold lift at 1. rewrite Hparse, Hl.
    unfold bind at 1. unfold try_except. rewrite Hret.
    simpl. unfold rolled_back. by rewrite Hc.
  - intros Hallow Hne Hret.
    destruct (args_not_empty args Hne) as (kv & l & Hl).
    pose proof (put_try_commits_last r req id args s s' _ Hret) as Hc.
    simpl in Hc.
    unfold CommonItemResource.put, interface_control.method_control,
      interface_control.access_logger, finish, CommonItemResource.put_handler.
    rewrite Hallow.
    unfold bind at 1. unfold lift at 1. rewrite Hparse, Hl.
    unfold bind at 1. unfold try_except. rewrite Hret.
    simpl. unfold rolled_back. by rewrite Hc.
  - intros Hallow Hret.
    pose proof (delete_try_commits_last r req id args s s' _ Hret) as Hc.
    simpl in Hc.
    unfold CommonItemResource.delete, interface_control.method_control,
      interface_control.access_logger, finish, CommonItemResource.delete_handler.
    rewrite Hallow.
    unfold bind at 1. unfold lift at 1. rewrite Hparse.
    unfold bind at 1. unfold try_except. rewrite Hret.
    simpl. unfold rolled_back. by rewrite Hc.
Qed.

(** X8: a create or an update whose payload leaves no argument, every
    declared name absent or null, is answered with the "parameters required"
    envelope; the storage is not called and nothing is persisted. *)
Theorem empty_payload_is_rejected (r : Resource) (req : Request)
    (id : pyval) (ns : arguments) (s : db) :
  parse_args req = Ok ns →
  (∀ k v, ns !! k = Some v → v = VNone) →
  (name_in "POST" (ALLOW_METHOD r) = true →
   CommonListResource.post r req s
   = (rolled_back s, CommonResource.http_resp req FAILED_CODE MSG_EMPTY_ARGS [] 200))
  ∧ (name_in "PUT" (ALLOW_METHOD r) = true →
     CommonItemResource.put r req id s
     = (rolled_back s, CommonResource.http_resp req FAILED_CODE MSG_EMPTY_ARGS [] 200)).
Proof.
  intros Hparse Hnull.
  assert (CommonResource.get_parser_args req = Ok ∅) as Hargs.
  { unfold CommonResource.get_parser_args. rewrite Hparse. simpl. f_equal.
    apply map_empty. intros k. apply map_lookup_filter_None.
    destruct (ns !! k) as [v|] eqn:Hk; [right|by left].
    intros v' [= <-]. rewrite (Hnull k v Hk). simpl. by intros []. }
  split; intros Hallow.
  - unfold CommonListResource.post, interface_control.method_control,
      interface_control.access_logger, finish, CommonListResource.post_handler.
    rewrite Hallow.
    unfold bind at 1. unfold lift at 1. rewrite Hargs.
    by rewrite map_to_list_empty.
  - unfold CommonItemResource.put, interface_control.method_control,
      interface_control.access_logger, finish, CommonItemResource.put_handler.
    rewrite Hallow.
    unfold bind at 1. unfold lift at 1. rewrite Hargs.
    by rewrite map_to_list_empty.
Qed.
End transport_properties.

(** ** Create and hard delete *)

Section create_properties.
Context {Consts : Constants} {Codec : JsonCodec} {Eng : Engine}.
Import CommonModelResource.

(** A create that ran to its commit: the arguments it used and the table
    it committed. *)
Lemma post_try_done (r : Resource) (req : Request) (args : arguments)
    (s s1 : db) (out : pyobj) :
  CommonListResource.post_try r req args s = (s1, Next out) →
  ∃ args' row,
    post_arguments r (session s) args = Ok args'
    ∧ add_flush (model r) (filter (λ kv, hasattr_model (model r) kv.1) args') s
      = ({| committed := committed s; session := (session s ++ [row])%list |}, Next row)
    ∧ committed s1 = (session s ++ [row])%list.
Proof.
  unfold CommonListResource.post_try. intros Hrun.
  apply bind_inv in Hrun as [(s2 & exist & Hexist & Hrun)|[(x & _ & ?)|(x & _ & ?)]];
    [|discriminate..].
  apply reads_check_item_exist in Hexist as ->.
  apply bind_inv in Hrun as [(s2 & u & Hif & Hrun)|[(x & _ & ?)|(x & _ & ?)]];
    [|discriminate..].
  assert (s2 = s) as ->.
  { revert Hif. apply reads_if; auto with reads. }
  apply bind_inv in Hrun as [(s2 & args' & Hpre & Hrun)|[(x & _ & ?)|(x & _ & ?)]];
    [|discriminate..].
  assert (s2 = s ∧ post_arguments r (session s) args = Ok args') as [-> Hargs].
  { revert Hpre. unfold post_arguments.
    unfold bind, get_session, lift, return_if_response, as_args, ret.
    destruct (post_preprocess_func r) as [f|]; [|by intros [= <- <-]].
    destruct (f (session s) args) as [o|e]; [|done].
    destruct o; simpl; try discriminate. by intros [= <- <-]. }
  apply bind_inv in Hrun as [(s2 & row & Hadd & Hrun)|[(x & _ & ?)|(x & _ & ?)]];
    [|discriminate..].
  exists args', row. split; [done|].
  assert (s2 = {| committed := committed s; session := (session s ++ [row])%list |}) as ->.
  { revert Hadd. unfold add_flush, bind, db_call, get_session, set_session, ret.
    destruct (db_fault Flush); [discriminate|]. by intros [= <- <-]. }
  split; [done|].
  apply bind_inv in Hrun as [(s3 & o1 & Hp1 & Hrun)|[(x & _ & ?)|(x & _ & ?)]];
    [|discriminate..].
  apply reads_object_hook in Hp1 as ->.
  apply bind_inv in Hrun as [(s3 & o2 & Hp2 & Hrun)|[(x & _ & ?)|(x & _ & ?)]];
    [|discriminate..].
  apply reads_data_process_step in Hp2 as ->.
  apply bind_inv in Hrun as [(s3 & o3 & Hp3 & Hrun)|[(x & _ & ?)|(x & _ & ?)]];
    [|discriminate..].
  apply reads_object_hook in Hp3 as ->.
  revert Hrun. unfold commit, bind, db_call.
  destruct (db_fault Commit); [discriminate|]. simpl. by intros [= <- _].
Qed.

(** X9: a create that ran to its commit has appended exactly one row to
    the table and changed no other; the row holds the value of every
    argument whose key is an attribute of the model, and an argument whose
    key is no attribute of the model leaves no trace in it. *)
Theorem create_appends_one_row (r : Resource) (req : Request) (args : arguments)
    (s s1 : db) (out : pyobj) :
  session s = committed s →
  CommonListResource.post_try r req args s = (s1, Next out) →
  ∃ args' row,
    post_arguments r (session s) args = Ok args'
    ∧ committed s1 = (committed s ++ [row])%list
    ∧ (∀ k v, args' !! k = Some v → hasattr_model (model r) k = true →
         row !! k = Some v)
    ∧ (∀ k, hasattr_model (model r) k = false → k ≠ "id" →
         row !! k = m_defaults (model r) !! k).
Proof.
  intros Hfresh Hrun.
  destruct (post_try_done r req args s s1 out Hrun)
    as (args' & row & Hargs & Hadd & Hcommitted).
  exists args', row. rewrite <- Hfresh. split; [done|]. split; [done|].
  revert Hadd. unfold add_flush, bind, db_call, get_session, set_session, ret.
  destruct (db_fault Flush); [discriminate|].
  set (kwargs := filter (λ kv, hasattr_model (model r) kv.1) args').
  intros [= Hrow _]. apply app_inj_tail in Hrow as [_ Hrow].
  assert (∀ k v, args' !! k = Some v → hasattr_model (model r) k = true →
                 kwargs !! k = Some v) as Hin.
  { intros k v Hk Hattr. apply map_lookup_filter_Some. split; [done|].
    simpl. by rewrite Hattr. }
  assert (∀ k, hasattr_model (model r) k = false → kwargs !! k = None) as Hout.
  { intros k Hattr. apply map_lookup_filter_None. right. intros v _. simpl.
    rewrite Hattr. by intros []. }
  split.
  - intros k v Hk Hattr. specialize (Hin k v Hk Hattr). subst row.
    destruct (kwargs !! "id") as [i|] eqn:Hid.
    + by apply lookup_union_Some_l.
    + destruct (decide (k = "id")) as [->|Hne]; [congruence|].
      rewrite lookup_insert_ne by done. by apply lookup_union_Some_l.
  - intros k Hattr Hne. specialize (Hout k Hattr). subst row.
    destruct (kwargs !! "id") as [i|] eqn:Hid.
    + by rewrite lookup_union_r.
    + rewrite lookup_insert_ne by done. by rewrite lookup_union_r.
Qed.

(** A delete that ran to its commit on a table without the flag. *)
Lemma delete_try_done_hard (r : Resource) (req : Request) (id : pyval)
    (args : arguments) (s s1 : db) :
  get_item_func r = None →
  (∀ row, row ∈ session s → row !! "is_delete" = None) →
  CommonItemResource.delete_try r req id args s = (s1, Next tt) →
  ∃ row, find (has_id id) (session s) = Some row
         ∧ db_fault Select = None
         ∧ s1 = {| committed := session_delete row (session s);
                   session := session_delete row (session s) |}.
Proof.
  intros Hfetch Hinst. unfold CommonItemResource.delete_try.
  unfold CommonItemResource.get_item. rewrite Hfetch.
  unfold query_get.
  unfold bind at 1. unfold bind at 1. unfold bind at 1. unfold db_call at 1.
  destruct (db_fault Select) eqn:Hsel; [discriminate|].
  unfold bind at 1. unfold get_session at 1. unfold ret at 1. unfold ret at 1.
  destruct (is_none id) eqn:Hnone.
  { simpl. unfold bind. simpl. discriminate. }
  destruct (find (has_id id) (session s)) as [row|] eqn:Hfind; simpl;
    [|unfold bind; simpl; discriminate].
  destruct (truthy (default (VInt 0) (row !! "is_delete"))); simpl;
    [unfold bind; simpl; discriminate|].
  unfold bind at 1. unfold ret at 1.
  unfold bind at 1. unfold CommonItemResource.not_found_if_none at 1.
  simpl is_None. cbv iota. unfold ret at 1.
  intros Hrun. exists row. split; [done|]. split; [done|].
  apply bind_inv in Hrun as [(s2 & args' & Hpre & Hrun)|[(x & _ & ?)|(x & _ & ?)]];
    [|discriminate..].
  assert (s2 = s) as ->.
  { revert Hpre. unfold bind, get_session, lift, return_if_response, as_args, ret.
    destruct (delete_preprocess_func r) as [f|]; [|by intros [= <- _]].
    destruct (f (session s) (PRow row) args) as [o|e]; [|done].
    destruct o; simpl; try discriminate. by intros [= <- _]. }
  assert (hasattr (PRow row) "is_delete" = false) as Hattr.
  { simpl. apply bool_decide_eq_false. rewrite Hinst; [by intros [? ?]|].
    apply list_elem_of_In. by apply (find_some _ _ Hfind). }
  unfold CommonItemResource.delete_item in Hrun. rewrite Hattr in Hrun.
  unfold bind at 1 in Hrun. unfold bind at 1 in Hrun. unfold get_session at 1 in Hrun.
  unfold bind at 1 in Hrun. unfold set_session at 1 in Hrun.
  unfold ret at 1 in Hrun.
  apply bind_inv in Hrun as [(s3 & o & Hpost & Hrun)|[(x & _ & ?)|(x & _ & ?)]];
    [|discriminate..].
  apply object_hook_next in Hpost as ->.
  revert Hrun. unfold commit, bind, db_call.
  destruct (db_fault Commit); [discriminate|]. simpl. by intros [= <-].
Qed.

(** X10: on a table whose rows have no soft-delete flag, a delete that ran
    to its commit has removed the rows with the identifier and kept every
    other row, in the order they had; the identifier is then not found any
    more by the item fetch. *)
Theorem hard_delete_removes_record (r : Resource) (req : Request) (id : pyval)
    (args : arguments) (s s1 : db) :
  session s = committed s →
  get_item_func r = None →
  (∀ row, row ∈ committed s → row !! "is_delete" = None) →
  CommonItemResource.delete_try r req id args s = (s1, Next tt) →
  let rows' := filter (λ x, has_id id x = false) (committed s) in
  is_Some (find (has_id id) (committed s))
  ∧ s1 = {| committed := rows'; session := rows' |}
  ∧ find (has_id id) rows' = None
  ∧ (∀ r2 args2, get_item_func r2 = None →
       CommonItemResource.get_item r2 id args2 s1 = (s1, Next PNone)).
Proof.
  intros Hfresh Hfetch Hinst Hrun. cbv zeta.
  destruct (delete_try_done_hard r req id args s s1 Hfetch) as (row & Hfind & Hsel & ->);
    [by rewrite Hfresh | done |].
  rewrite Hfresh in *.
  destruct (find_some _ _ Hfind) as [_ Hid].
  assert (session_delete row (committed s)
          = filter (λ x, has_id id x = false) (committed s)) as ->.
  { unfold session_delete. by rewrite (has_id_eq _ _ Hid). }
  assert (find (has_id id) (filter (λ x, has_id id x = false) (committed s)) = None)
    as Hgone.
  { destruct (find _ (filter _ _)) as [x|] eqn:Hx; [|done].
    destruct (find_some _ _ Hx) as [Hin Hxid].
    apply list_elem_of_In, list_elem_of_filter in Hin as [Hno _]. congruence. }
  split; [by eexists|]. split; [done|]. split; [done|].
  intros r2 args2 Hfetch2. unfold CommonItemResource.get_item. rewrite Hfetch2.
  unfold query_get, bind, db_call, get_session, ret. rewrite Hsel. simpl.
  destruct (is_none id); [done|]. by rewrite Hgone.
Qed.
End create_properties.

(** ** What the filter helpers select *)

Section selection_properties.
Context {Consts : Constants} {Codec : JsonCodec} {Eng : Engine}.
Import CommonModelResource.

(** The loop over the filters, exactly: the rows it keeps are the rows
    that pass every honoured directive, and the equality filters are the
    entries that are no dict. *)
Lemma filters_loop_exact (model : Model) (rows : list record) (filters : arguments) :
  ∀ query equal_filters,
    map_fold (filters_step model) (Ok (rows, ∅)) filters = Ok (query, equal_filters) →
    (∀ r, r ∈ query ↔
          r ∈ rows
          ∧ ∀ k d op v0, filters !! k = Some (VDict d) →
              first_directive d = Some (op, v0) →
              sql_compare op (row_value r k) v0 = true)
    ∧ (∀ k v, equal_filters !! k = Some v ↔ filters !! k = Some v ∧ is_dict v = false).
Proof.
  apply (map_fold_weak_ind (λ (res : result (list record * arguments)) (m : arguments),
    ∀ query equal_filters, res = Ok (query, equal_filters) →
      (∀ r, r ∈ query ↔
            r ∈ rows
            ∧ ∀ k d op v0, m !! k = Some (VDict d) →
                first_directive d = Some (op, v0) →
                sql_compare op (row_value r k) v0 = true)
      ∧ (∀ k v, equal_filters !! k = Some v ↔ m !! k = Some v ∧ is_dict v = false))).
  - intros query e [= <- <-]. split.
    + intros r. split; [intros Hr; split; [done|]|by intros [? _]].
      intros k d op v0. by rewrite lookup_empty.
    + intros k v. rewrite !lookup_empty. split; [done|by intros [? _]].
  - intros i x m res Hi IH query e Hstep.
    destruct res as [[q0 e0]|err]; [|discriminate].
    destruct (IH q0 e0 eq_refl) as [Hq He].
    unfold filters_step in Hstep. simpl in Hstep.
    assert (is_dict x = false →
            (∀ r, r ∈ q0 ↔
               r ∈ rows
               ∧ ∀ k d op v0, <[i:=x]> m !! k = Some (VDict d) →
                   first_directive d = Some (op, v0) →
                   sql_compare op (row_value r k) v0 = true)
            ∧ (∀ k v, <[i:=x]> e0 !! k = Some v
                      ↔ <[i:=x]> m !! k = Some v ∧ is_dict v = false)) as Hplain.
    { intros Hx. split.
      - intros r. rewrite Hq. split; intros [Hr Hall]; (split; [done|]);
          intros k d op v0 Hk Hd.
        + destruct (decide (k = i)) as [->|Hne].
          * rewrite lookup_insert_eq in Hk. injection Hk as ->. discriminate.
          * rewrite lookup_insert_ne in Hk by done. by eapply Hall.
        + eapply Hall; [|done]. rewrite lookup_insert_ne; [done|].
          intros <-. congruence.
      - intros k v. destruct (decide (k = i)) as [->|Hne].
        + rewrite !lookup_insert_eq. split; [intros [= <-]; by split|by intros [? _]].
        + rewrite !lookup_insert_ne by done. apply He. }
    destruct x as [| n | str | l | d];
      try (injection Hstep as <- <-; by apply Hplain).
    assert (∀ k v, e0 !! k = Some v
                   ↔ <[i:=VDict d]> m !! k = Some v ∧ is_dict v = false) as He'.
    { intros k v. rewrite He. destruct (decide (k = i)) as [->|Hne].
      - rewrite lookup_insert_eq, Hi. split; [by intros [? _]|].
        intros [[= <-] ?]. discriminate.
      - by rewrite lookup_insert_ne. }
    unfold _query_filter_other_logic in Hstep.
    destruct (first_directive d) as [[op v0]|] eqn:Hd.
    + destruct (hasattr_model model i); [|discriminate].
      injection Hstep as <- <-. split; [|done].
      intros r. rewrite list_elem_of_filter, Hq. split.
      * intros [Hop [Hr Hall]]. split; [done|]. intros k d' op' v0' Hk Hd'.
        destruct (decide (k = i)) as [->|Hne].
        -- rewrite lookup_insert_eq in Hk. injection Hk as <-.
           rewrite Hd in Hd'. injection Hd' as <- <-. by apply Is_true_true.
        -- rewrite lookup_insert_ne in Hk by done. by eapply Hall.
      * intros [Hr Hall]. split; [|split; [done|]].
        -- apply Is_true_true. eapply Hall; [|done]. by rewrite lookup_insert_eq.
        -- intros k d' op' v0' Hk Hd'. eapply Hall; [|done].
           rewrite lookup_insert_ne; [done|]. intros <-. congruence.
    + injection Hstep as <- <-. split; [|done].
      intros r. rewrite Hq. split; intros [Hr Hall]; (split; [done|]);
        intros k d' op' v0' Hk Hd'.
      * destruct (decide (k = i)) as [->|Hne].
        -- rewrite lookup_insert_eq in Hk. injection Hk as <-. congruence.
        -- rewrite lookup_insert_ne in Hk by done. by eapply Hall.
      * eapply Hall; [|done]. rewrite lookup_insert_ne; [done|].
        intros <-. congruence.
Qed.

Lemma satisfies_split (r : record) (filters : arguments) :
  satisfies r filters
  ↔ (∀ k d op v0, filters !! k = Some (VDict d) →
       first_directive d = Some (op, v0) →
       sql_compare op (row_value r k) v0 = true)
    ∧ (∀ k v, filters !! k = Some v → is_dict v = false →
         pyval_eqb (row_value r k) v = true).
Proof.
  unfold satisfies. split.
  - intros Hs. split.
    + intros k d op v0 Hk Hd. specialize (Hs k _ Hk). simpl in Hs. by rewrite Hd in Hs.
    + intros k v Hk Hv. specialize (Hs k _ Hk). by destruct v.
  - intros [Hd He] k v Hk. destruct v as [| n | str | l | d];
      try (by apply He).
    destruct (first_directive d) as [[op v0]|] eqn:Hfd; [|done]. by eapply Hd.
Qed.

(** X11: without a projection, the query of the filter helpers holds
    exactly the rows of the table that pass every entry of the filter map,
    the forced soft-delete entry included: equality for a plain value, the
    comparison of the honoured directive for a dict. *)
Theorem filters_query_selects_matching_rows (model : Model) (filters : arguments)
    (rows out : list record) :
  filters_query model [] filters rows = Ok out →
  ∀ r, r ∈ out ↔ r ∈ rows ∧ satisfies r (effective_filters model filters).
Proof.
  unfold filters_query. fold (effective_filters model filters).
  destruct (map_fold _ (Ok (rows, ∅)) _) as [[q e]|err] eqn:Hfold; [|discriminate].
  simpl. destruct (filters_loop_exact _ _ _ _ _ Hfold) as [Hq He].
  intros Hout r. rewrite satisfies_split.
  destruct (map_to_list e) as [|kv l] eqn:Hl.
  - injection Hout as <-. apply map_to_list_empty_iff in Hl. subst e.
    rewrite Hq. split; intros [Hr Hall]; [split; [done|]; split; [done|]|by split; [|apply Hall]].
    intros k v Hk Hv. assert ((∅ : arguments) !! k = Some v) as Hempty by by apply He.
    by rewrite lookup_empty in Hempty.
  - clear Hl. unfold filter_by in Hout.
    destruct (forallb _ (map_to_list e)); [|discriminate].
    simpl in Hout. injection Hout as <-.
    rewrite list_elem_of_filter, Hq. split.
    + intros [Hall [Hr Hd]]. split; [done|]. split; [done|].
      intros k v Hk Hv. apply Is_true_true in Hall. rewrite forallb_forall in Hall.
      apply (Hall (k, v)). apply list_elem_of_In, elem_of_map_to_list.
      by apply He.
    + intros [Hr [Hd Heq]]. split; [|by split].
      apply Is_true_true, forallb_forall. intros [k v] Hkv.
      apply list_elem_of_In, elem_of_map_to_list, He in Hkv as [Hk Hv].
      by apply Heq.
Qed.

(** The query of a lookup with no filter at all. *)
Lemma filters_query_no_filter (model : Model) (rows : list record) :
  filters_query model [] ∅ rows
  = Ok (if hasattr_model model "is_delete"
        then filter (λ r, not_deleted r) rows else rows).
Proof.
  unfold filters_query. destruct (hasattr_model model "is_delete") eqn:Hattr.
  - rewrite insert_empty, map_fold_singleton. simpl.
    rewrite insert_empty, map_to_list_singleton. unfold filter_by.
    rewrite map_to_list_singleton. simpl. rewrite Hattr. simpl. f_equal.
    apply list_filter_iff. intros r. unfold not_deleted.
    by rewrite andb_true_r.
  - rewrite map_fold_empty. simpl. by rewrite map_to_list_empty.
Qed.

(** X12: on a resource that declares no uniqueness field for create and
    defines no existence hook, the existence check is a lookup without any
    filter: the create is answered with "already exists" as soon as the
    table holds a live row, whatever the arguments are, and persists
    nothing. *)
Theorem create_without_unique_fields_is_rejected (r : Resource) (req : Request)
    (args : arguments) (s : db) (first : record) (others : list record) :
  name_in "POST" (ALLOW_METHOD r) = true →
  CommonResource.get_parser_args req = Ok args →
  args ≠ ∅ →
  post_check_exist_fields r = [] →
  db_fault Select = None →
  (if hasattr_model (model r) "is_delete"
   then filter (λ row, not_deleted row) (session s) else session s)
  = first :: others →
  CommonListResource.post r req s
  = (rolled_back s, CommonResource.http_resp req FAILED_CODE MSG_EXISTS [] 200).
Proof.
  intros Hallow Hparse Hne Hfields Hsel Hlive.
  destruct (args_not_empty args Hne) as (kv & l & Hl).
  unfold CommonListResource.post, interface_control.method_control,
    interface_control.access_logger, finish, CommonListResource.post_handler.
  rewrite Hallow.
  unfold bind at 1. unfold lift at 1. rewrite Hparse, Hl.
  unfold bind at 1. unfold try_except, CommonListResource.post_try.
  rewrite Hfields. unfold check_item_exist. simpl omap.
  unfold get_item_by_filters.
  unfold bind at 1. unfold bind at 1. unfold get_session at 1.
  unfold bind at 1. unfold lift at 1.
  change (list_to_map []) with (∅ : arguments).
  rewrite filters_query_no_filter, Hlive.
  unfold bind at 1. unfold db_call at 1. rewrite Hsel.
  by simpl.
Qed.

(** X13: of the comparison directives of one field only one is applied,
    the first of gt, lt, ge, le, ne that is a key of the dict: the other
    keys of the dict do not change the query, and [gt] wins over all. *)
Theorem only_first_directive_is_applied (model : Model) (query : list record)
    (field : string) (logic_value : list (string * pyval)) (op : string) (v : pyval) :
  first_directive logic_value = Some (op, v) →
  _query_filter_other_logic model query field logic_value
    = _query_filter_other_logic model query field [(op, v)]
  ∧ (∀ v', dict_get "gt" logic_value = Some v' → op = "gt" ∧ v = v').
Proof.
  intros Hfirst. split.
  - unfold _query_filter_other_logic. rewrite Hfirst.
    assert (first_directive [(op, v)] = Some (op, v)) as ->; [|done].
    revert Hfirst. unfold first_directive. simpl.
    destruct (dict_get "gt" logic_value); simpl; [by intros [= <- <-]|].
    destruct (dict_get "lt" logic_value); simpl; [by intros [= <- <-]|].
    destruct (dict_get "ge" logic_value); simpl; [by intros [= <- <-]|].
    destruct (dict_get "le" logic_value); simpl; [by intros [= <- <-]|].
    destruct (dict_get "ne" logic_value); simpl; [by intros [= <- <-]|].
    discriminate.
  - intros v' Hgt. revert Hfirst. unfold first_directive. simpl.
    rewrite Hgt. simpl. by intros [= <- <-].
Qed.

(** The pagination step alone: the first pair hides the second, and
    without a complete pair the query is left as it is. *)
Lemma paginate_pairs (args : arguments) (query : list record) :
  (∀ start number page per_page,
     args !! "start" = Some start → args !! "number" = Some number →
     CommonListResource.paginate (<["page" := page]> (<["per_page" := per_page]> args)) query
     = CommonListResource.paginate args query)
  ∧ ((args !! "start" = None ∨ args !! "number" = None) →
     (args !! "page" = None ∨ args !! "per_page" = None) →
     CommonListResource.paginate args query = Ok query).
Proof.
  split.
  - intros start number page per_page Hs Hn. unfold CommonListResource.paginate.
    rewrite !lookup_insert_ne by done. by rewrite Hs, Hn.
  - intros Hoff Hpage. unfold CommonListResource.paginate.
    destruct (args !! "start"), (args !! "number"), (args !! "page"),
      (args !! "per_page"); try done; by destruct Hoff, Hpage.
Qed.

(** X14: the pagination of the list of a resource without query hooks:
    [start] with [number] wins over [page] with [per_page], whose values are
    then not even read, and a key without its partner is ignored: with no
    complete pair, and a sort that keeps the number of rows, the list holds
    as many rows as [total] counts. *)
Theorem pagination_precedence (r : Resource) (args : arguments) (s : db) :
  get_query_func r = None → add_query_filter r = None → add_query_sort r = None →
  (∀ start number page per_page,
     args !! "start" = Some start → args !! "number" = Some number →
     CommonListResource.get_items r
       (<["page" := page]> (<["per_page" := per_page]> args)) s
     = CommonListResource.get_items r args s)
  ∧ ((args !! "start" = None ∨ args !! "number" = None) →
     (args !! "page" = None ∨ args !! "per_page" = None) →
     (∀ field query, length (order_by_desc field query) = length query) →
     ∀ s' total items,
       CommonListResource.get_items r args s = (s', Next (total, PList items)) →
       total = Z.of_nat (length items)).
Proof.
  intros Hq Hf Hsort. split.
  - intros start number page per_page Hs Hn.
    unfold CommonListResource.get_items, CommonListResource.get_query,
      CommonListResource.filtered_query.
    rewrite Hq, Hf, Hsort.
    cbv beta iota delta [bind ret get_session lift CommonListResource.get_total].
    destruct (db_call Select s) as [s1 [[]|?|?]]; [|done|done].
    by rewrite (proj1 (paginate_pairs args _) start number page per_page Hs Hn).
  - intros Hoff Hpage Hlen s' total items.
    unfold CommonListResource.get_items, CommonListResource.get_query,
      CommonListResource.filtered_query.
    rewrite Hq, Hf, Hsort.
    cbv beta iota delta [bind ret get_session lift CommonListResource.get_total].
    destruct (db_call Select s) as [s1 [[]|?|?]]; [|done|done].
    rewrite (proj2 (paginate_pairs args _) Hoff Hpage).
    destruct (db_call Select s1) as [s2 [[]|?|?]]; [|done|done].
    simpl. intros [= _ <- Hitems].
    apply (f_equal length) in Hitems. rewrite length_fmap in Hitems.
    rewrite <- Hitems.
    destruct (hasattr_model (model r) "create_time"); [|done].
    by rewrite Hlen.
Qed.
End selection_properties.

(** ** The serializer called by keyword, and the helpers of utils.py *)

Section serializer_properties.
Context {Consts : Constants} {Codec : JsonCodec}.

(** The loop over the features with no JSON feature declared. *)
Lemma process_features_plain (r : record) (features : list string) :
  ∀ acc : gmap string pyval,
    ∃ out, process_features (PRow r) [] [] acc features = Ok out
           ∧ ∀ k, out !! k
                  = if name_in k features
                    then match r !! k with Some v => Some v | None => acc !! k end
                    else acc !! k.
Proof.
  induction features as [|f fs IH]; intros acc.
  - exists acc. by split.
  - simpl. unfold process_feature. simpl.
    assert (∀ acc' : gmap string pyval,
              (∀ k, acc' !! k = if String.eqb k f
                                then match r !! k with
                                     | Some v => Some v | None => acc !! k end
                                else acc !! k) →
              ∃ out, process_features (PRow r) [] [] acc' fs = Ok out
                     ∧ ∀ k, out !! k
                            = if String.eqb k f || name_in k fs
                              then match r !! k with
                                   | Some v => Some v | None => acc !! k end
                              else acc !! k) as Hnext.
    { intros acc' Hacc'. destruct (IH acc') as (out & Hout & Hlookup).
      exists out. split; [done|]. intros k. rewrite Hlookup, Hacc'.
      destruct (String.eqb k f), (name_in k fs), (r !! k); done. }
    destruct (r !! f) as [v|] eqn:Hf.
    + assert (∀ k, <[f:=v]> acc !! k
                   = if String.eqb k f
                     then match r !! k with Some v => Some v | None => acc !! k end
                     else acc !! k) as Hins.
      { intros k. destruct (String.eqb k f) eqn:Hk.
        - apply String.eqb_eq in Hk as ->. by rewrite lookup_insert_eq, Hf.
        - apply String.eqb_neq in Hk. by rewrite lookup_insert_ne. }
      destruct (is_none v); simpl; by apply Hnext.
    + simpl. apply Hnext. intros k. destruct (String.eqb k f) eqn:Hk; [|done].
      apply String.eqb_eq in Hk as ->. by rewrite Hf.
Qed.

(** X15: called the way its signature asks, with the options given by
    keyword and no JSON feature declared, the serializer of one record
    never raises and emits the value of every selected attribute as it is
    stored, [None] included, and nothing else; with no feature list given,
    the selected attributes are those whose name neither starts with an
    underscore nor is in [DB_QUERY_OBJ_ATTRS]. *)
Theorem serializer_emits_attributes_unchanged (r : record) (date_format : Z)
    (item_features : list string) :
  ∃ out,
    process_query_item_data [ArgObj (PRow r)]
      [("date_format", ArgInt date_format); ("item_features", ArgNames item_features)]
    = Ok out
    ∧ (∀ k, out !! k
            = if name_in k (effective_features r item_features)
              then r !! k else None)
    ∧ (item_features = [] →
       ∀ k, out !! k
            = if startswith_underscore k || name_in k DB_QUERY_OBJ_ATTRS
              then None else r !! k).
Proof.
  destruct (process_features_plain r (effective_features r item_features) ∅)
    as (out & Hout & Hlookup).
  exists out.
  assert (∀ k, out !! k
               = if name_in k (effective_features r item_features)
                 then r !! k else None) as Hall.
  { intros k. rewrite Hlookup, lookup_empty.
    destruct (name_in k _); [|done]. by destruct (r !! k). }
  split; [|split; [done|]].
  - change (process_query_item_data [ArgObj (PRow r)]
              [("date_format", ArgInt date_format);
               ("item_features", ArgNames item_features)])
      with (process_query_item_data_body (PRow r) date_format item_features [] []).
    unfold process_query_item_data_body. simpl falsy. cbv iota.
    exact Hout.
  - intros -> k. rewrite Hall. unfold effective_features.
    destruct (name_in k (filter _ (dir (PRow r)))) eqn:Hin.
    + apply name_in_elem, list_elem_of_filter in Hin as [HP _].
      apply Is_true_true, andb_true_iff in HP as [Hu Hq].
      apply negb_true_iff in Hu, Hq. by rewrite Hu, Hq.
    + destruct (startswith_underscore k || name_in k DB_QUERY_OBJ_ATTRS) eqn:HP;
        [done|].
      destruct (r !! k) as [v|] eqn:Hk; [|done]. exfalso.
      assert (name_in k (filter (λ attr, negb (startswith_underscore attr)
                                         && negb (name_in attr DB_QUERY_OBJ_ATTRS))
                                (dir (PRow r))) = true) as Hyes; [|congruence].
      apply name_in_elem, list_elem_of_filter. split.
      * apply orb_false_iff in HP as [-> ->]. done.
      * simpl. apply list_elem_of_fmap. exists (k, v). split; [done|].
        by apply elem_of_map_to_list.
Qed.

(** X16: encoding then decoding with the two helpers gives the value
    back, for every value that is not [None] and that the codec itself takes
    through; [None] is encoded as the text of the empty object and comes back
    as what the codec makes of that text. *)
Theorem loads_dumps_round_trip (v : pyval) :
  (is_none v = false →
   json_dumps v ≠ "" →
   json_loads (json_dumps v) = Ok v →
   loads_json_str (dumps_json_str v) = Ok v)
  ∧ loads_json_str (dumps_json_str VNone) = json_loads "{}".
Proof.
  split; [|done].
  intros Hv Hne Hcodec. unfold dumps_json_str, loads_json_str. rewrite Hv. simpl.
  destruct (String.eqb (json_dumps v) "") eqn:Heq; [|done].
  by apply String.eqb_eq in Heq.
Qed.
End serializer_properties.

(** ** The version lookup *)

(** X17: the version lookup serves a version by its own entry exactly
    when the version is a non-empty name whose entry is there and truthy;
    in every other case, no version, an empty one, an unknown one or one
    with a falsy entry, it serves the entry of ["default"], and fails when
    there is none. *)
Theorem get_work_obj_falls_back_to_default (route_dict : gmap string pyval)
    (version : option string) :
  (∀ v x, version = Some v → v ≠ "" → route_dict !! v = Some x → truthy x = true →
     router_version.get_work_obj route_dict version = Some x)
  ∧ ((∀ v x, version = Some v → v ≠ "" → route_dict !! v = Some x →
        truthy x = false) →
     router_version.get_work_obj route_dict version = route_dict !! "default").
Proof.
  unfold router_version.get_work_obj. split.
  - intros v x -> Hne Hv Hx. apply String.eqb_neq in Hne. rewrite Hne, Hv, Hx.
    exact Hv.
  - intros Hfalsy. destruct version as [v|].
    2:{ destruct (route_dict !! "default") as [x|] eqn:Hd;
          [destruct (truthy x)|]; exact Hd. }
    destruct (String.eqb v "") eqn:Hv.
    + destruct (route_dict !! "default") as [x|] eqn:Hd;
        [destruct (truthy x)|]; exact Hd.
    + apply String.eqb_neq in Hv. destruct (route_dict !! v) as [x|] eqn:Hx; [|done].
      by rewrite (Hfalsy v x eq_refl Hv Hx).
Qed.

(** * The further properties on the concrete world *)

Module Coverage.
Import World Fixtures.
Import CommonModelResource.

#[local] Existing Instance constants.
#[local] Existing Instance codec.
#[local] Existing Instance sound_engine.

(** X2 at a list read of one row with the default serializer, and at an
    item read on a storage that raises. *)
Lemma read_exception_is_query_failed_witness :
  CommonListResource.get (plain item_model) (request ∅) (fresh [row 1 "a" 0])
    = (fresh [row 1 "a" 0],
       Ok {| code := 0; message := MSG_QUERY_FAILED; data := VDict [];
             request_id := Some "req-1"; status_code := 200 |})
  ∧ CommonItemResource.get (Eng := broken_engine) (plain item_model) (request ∅)
      (VInt 1) (fresh [row 1 "a" 0])
    = (fresh [row 1 "a" 0],
       Ok {| code := 0; message := MSG_QUERY_FAILED; data := VDict [];
             request_id := Some "req-1"; status_code := 200 |}).
Proof.
  split.
  - refine (proj1 (read_exception_is_query_failed (plain item_model) (request ∅)
                     (VInt 1) ∅ (fresh [row 1 "a" 0]) (fresh [row 1 "a" 0])
                     TypeError eq_refl eq_refl) _).
    vm_compute. reflexivity.
  - refine (proj2 (read_exception_is_query_failed (Eng := broken_engine)
                     (plain item_model) (request ∅)
                     (VInt 1) ∅ (fresh [row 1 "a" 0]) (fresh [row 1 "a" 0])
                     DbError eq_refl eq_refl) _).
    vm_compute. reflexivity.
Defined.

(** X3 at reads guarded by a pre-hook, on a storage that raises. *)
Lemma read_pre_hook_response_is_returned_witness :
  CommonListResource.get (Eng := broken_engine) guarded (request ∅)
      (fresh [row 1 "a" 0])
    = (fresh [row 1 "a" 0], Ok prebuilt)
  ∧ CommonItemResource.get (Eng := broken_engine) guarded (request ∅) (VInt 1)
      (fresh [row 1 "a" 0])
    = (fresh [row 1 "a" 0], Ok prebuilt).
Proof.
  exact (read_pre_hook_response_is_returned (Eng := broken_engine) guarded
           (request ∅) (VInt 1) ∅ (fresh [row 1 "a" 0])
           (λ _ _, Ok (PResp prebuilt)) prebuilt eq_refl eq_refl eq_refl eq_refl).
Defined.

(** X4 at the item read of row 1 on the resource whose post-hook answers
    with a response. *)
Lemma item_post_hook_response_is_returned_witness :
  CommonItemResource.get short_circuit (request ∅) (VInt 1) (fresh [row 1 "a" 0])
  = (fresh [row 1 "a" 0], Ok prebuilt).
Proof.
  refine (item_post_hook_response_is_returned short_circuit (request ∅) (VInt 1) ∅
            (fresh [row 1 "a" 0]) (row 1 "a" 0)
            (λ _ _ _, Ok (PResp prebuilt)) prebuilt
            eq_refl eq_refl eq_refl eq_refl _ eq_refl eq_refl).
  vm_compute. reflexivity.
Defined.

(** X6 at the verbs a read-only resource does not declare. *)
Lemma undeclared_verb_is_rejected_witness :
  CommonListResource.post read_only (request {["name" := VStr "a"]}) (fresh [])
    = (fresh [],
       Ok {| code := 0; message := "POST method is not allowed"; data := VDict [];
             request_id := Some "req-1"; status_code := 404 |})
  ∧ CommonItemResource.delete read_only (request ∅) (VInt 1) (fresh [row 1 "a" 0])
    = (fresh [row 1 "a" 0],
       Ok {| code := 0; message := "DELETE method is not allowed"; data := VDict [];
             request_id := Some "req-1"; status_code := 404 |}).
Proof.
  split.
  - exact (proj1 (proj2 (undeclared_verb_is_rejected read_only
                           (request {["name" := VStr "a"]}) (VInt 1) (fresh [])))
             eq_refl).
  - exact (proj2 (proj2 (proj2 (undeclared_verb_is_rejected read_only (request ∅)
                                  (VInt 1) (fresh [row 1 "a" 0]))))
             eq_refl).
Defined.

(** X7 at a delete of an identifier no row carries. *)
Lemma write_early_return_persists_nothing_witness :
  CommonItemResource.delete (plain item_model) (request ∅) (VInt 7)
    (fresh [row 1 "a" 0])
  = (fresh [row 1 "a" 0],
     Ok {| code := 0; message := MSG_NOT_FOUND; data := VDict [];
           request_id := Some "req-1"; status_code := 200 |}).
Proof.
  refine (proj2 (proj2 (write_early_return_persists_nothing (plain item_model)
            (request ∅) (VInt 7) ∅ (fresh [row 1 "a" 0]) (fresh [row 1 "a" 0])
            {| code := 0; message := MSG_NOT_FOUND; data := VDict [];
               request_id := Some "req-1"; status_code := 200 |} eq_refl))
            eq_refl _).
  vm_compute. reflexivity.
Defined.

(** X8 at a create whose only declared argument is null. *)
Lemma empty_payload_is_rejected_witness :
  CommonListResource.post (plain item_model) (request {["name" := VNone]})
    (fresh [row 1 "a" 0])
  = (fresh [row 1 "a" 0],
     Ok {| code := 0; message := MSG_EMPTY_ARGS; data := VDict [];
           request_id := Some "req-1"; status_code := 200 |}).
Proof.
  refine (proj1 (empty_payload_is_rejected (plain item_model)
            (request {["name" := VNone]}) (VInt 1) {["name" := VNone]}
            (fresh [row 1 "a" 0]) eq_refl _) eq_refl).
  intros k v Hk. apply lookup_singleton_Some in Hk as [_ <-]. done.
Defined.

(** X9 at the create of [a] with a key that names no attribute. *)
Lemma create_appends_one_row_witness :
  ∃ args' new_row,
    post_arguments unique_name (session (fresh [row 1 "b" 0]))
      {["name" := VStr "a"; "ghost" := VInt 9]} = Ok args'
    ∧ [row 1 "b" 0; row 2 "a" 0] = (committed (fresh [row 1 "b" 0]) ++ [new_row])%list
    ∧ (∀ k v, args' !! k = Some v → hasattr_model (model unique_name) k = true →
         new_row !! k = Some v)
    ∧ (∀ k, hasattr_model (model unique_name) k = false → k ≠ "id" →
         new_row !! k = m_defaults (model unique_name) !! k).
Proof.
  refine (create_appends_one_row unique_name (request ∅)
            {["name" := VStr "a"; "ghost" := VInt 9]} (fresh [row 1 "b" 0])
            {| committed := [row 1 "b" 0; row 2 "a" 0];
               session := [row 1 "b" 0; row 2 "a" 0] |}
            (PDict (row 2 "a" 0)) eq_refl _).
  vm_compute. reflexivity.
Defined.

(** X10 at the delete of row 1 of two on a model without the flag. *)
Lemma hard_delete_removes_record_witness :
  let s := fresh [bare_row 1 "a"; bare_row 2 "b"] in
  let s1 := fresh [bare_row 2 "b"] in
  let rows' := filter (λ x, has_id (VInt 1) x = false) (committed s) in
  is_Some (find (has_id (VInt 1)) (committed s))
  ∧ s1 = {| committed := rows'; session := rows' |}
  ∧ find (has_id (VInt 1)) rows' = None
  ∧ (∀ r2 args2, get_item_func r2 = None →
       CommonItemResource.get_item r2 (VInt 1) args2 s1 = (s1, Next PNone)).
Proof.
  refine (hard_delete_removes_record (plain bare_model) (request ∅) (VInt 1) ∅
            (fresh [bare_row 1 "a"; bare_row 2 "b"]) (fresh [bare_row 2 "b"])
            eq_refl eq_refl _ _).
  - intros x Hx. simpl in Hx.
    apply elem_of_cons in Hx as [->|Hx]; [done|].
    apply elem_of_cons in Hx as [->|Hx]; [done|].
    by apply elem_of_nil in Hx.
  - vm_compute. reflexivity.
Defined.

(** X11 at a lookup by name on a table with a soft-deleted namesake. *)
Lemma filters_query_selects_matching_rows_witness :
  filters_query item_model [] {["name" := VStr "a"]}
    [row 1 "a" 0; row 2 "b" 0; row 3 "a" 1] = Ok [row 1 "a" 0]
  ∧ ∀ r, r ∈ [row 1 "a" 0]
         ↔ r ∈ [row 1 "a" 0; row 2 "b" 0; row 3 "a" 1]
           ∧ satisfies r (effective_filters item_model {["name" := VStr "a"]}).
Proof.
  assert (filters_query item_model [] {["name" := VStr "a"]}
            [row 1 "a" 0; row 2 "b" 0; row 3 "a" 1] = Ok [row 1 "a" 0]) as Hq
    by (vm_compute; reflexivity).
  split; [exact Hq|].
  exact (filters_query_selects_matching_rows item_model {["name" := VStr "a"]}
           [row 1 "a" 0; row 2 "b" 0; row 3 "a" 1] [row 1 "a" 0] Hq).
Defined.

(** X12 at a create of a new name on a table that holds one live row. *)
Lemma create_without_unique_fields_is_rejected_witness :
  CommonListResource.post (plain item_model) (request {["name" := VStr "z"]})
    (fresh [row 1 "a" 0])
  = (fresh [row 1 "a" 0],
     Ok {| code := 0; message := MSG_EXISTS; data := VDict [];
           request_id := Some "req-1"; status_code := 200 |}).
Proof.
  refine (create_without_unique_fields_is_rejected (plain item_model)
            (request {["name" := VStr "z"]}) {["name" := VStr "z"]}
            (fresh [row 1 "a" 0]) (row 1 "a" 0) [] eq_refl _ _ eq_refl eq_refl _).
  - vm_compute. reflexivity.
  - intros Hempty. by apply (f_equal (λ m : arguments, m !! "name")) in Hempty.
  - vm_compute. reflexivity.
Defined.

(** X13 at a dict with [lt] written before [gt]. *)
Lemma only_first_directive_is_applied_witness :
  _query_filter_other_logic item_model [row 1 "a" 0; row 5 "b" 0] "id"
      [("lt", VInt 3); ("gt", VInt 2)]
    = _query_filter_other_logic item_model [row 1 "a" 0; row 5 "b" 0] "id"
        [("gt", VInt 2)]
  ∧ (∀ v', dict_get "gt" [("lt", VInt 3); ("gt", VInt 2)] = Some v' →
       "gt" = "gt" ∧ VInt 2 = v').
Proof.
  exact (only_first_directive_is_applied item_model [row 1 "a" 0; row 5 "b" 0] "id"
           [("lt", VInt 3); ("gt", VInt 2)] "gt" (VInt 2) eq_refl).
Defined.

(** The insertion sort of the concrete engine keeps the number of rows. *)
Lemma insert_desc_length (field : string) (x : record) (rows : list record) :
  length (insert_desc field x rows) = S (length rows).
Proof.
  induction rows as [|y rows IH]; simpl; [done|].
  destruct (x !! field) as [[]|], (y !! field) as [[]|]; simpl;
    try (by rewrite IH).
  destruct (_ <? _); simpl; [done|]. by rewrite IH.
Qed.

Lemma sort_keeps_length (field : string) (rows : list record) :
  length (order_by_desc field rows) = length rows.
Proof.
  simpl. induction rows as [|x rows IH]; simpl; [done|].
  by rewrite insert_desc_length, IH.
Qed.

(** X14 at arguments with both pairs and at arguments with a lone key. *)
Lemma pagination_precedence_witness :
  let s := fresh [row 1 "a" 0; row 2 "b" 0; row 3 "c" 1] in
  CommonListResource.get_items (plain item_model)
      (<["page" := VInt 9]> (<["per_page" := VInt 9]>
         {["start" := VInt 1; "number" := VInt 1]})) s
    = CommonListResource.get_items (plain item_model)
        {["start" := VInt 1; "number" := VInt 1]} s
  ∧ 2 = Z.of_nat (length [PRow (row 1 "a" 0); PRow (row 2 "b" 0)]).
Proof.
  intros s. split.
  - apply (proj1 (pagination_precedence (plain item_model)
                    {["start" := VInt 1; "number" := VInt 1]} s
                    eq_refl eq_refl eq_refl)
             (VInt 1) (VInt 1) (VInt 9) (VInt 9)); vm_compute; reflexivity.
  - apply (proj2 (pagination_precedence (plain item_model) {["page" := VInt 2]} s
                    eq_refl eq_refl eq_refl)
             ltac:(left; vm_compute; reflexivity)
             ltac:(right; vm_compute; reflexivity)
             sort_keeps_length s).
    vm_compute. reflexivity.
Defined.

(** X15 at a record with a private attribute, all attributes selected. *)
Lemma serializer_emits_attributes_unchanged_witness :
  ∃ out,
    process_query_item_data
      [ArgObj (PRow {["id" := VInt 1; "note" := VNone; "_state" := VInt 0]})]
      [("date_format", ArgInt 1); ("item_features", ArgNames [])]
    = Ok out
    ∧ out = {["id" := VInt 1; "note" := VNone]}.
Proof.
  destruct (serializer_emits_attributes_unchanged
              {["id" := VInt 1; "note" := VNone; "_state" := VInt 0]} 1 [])
    as (out & Hout & _ & _).
  exists out. split; [exact Hout|].
  assert (Ok out = Ok ({["id" := VInt 1; "note" := VNone]} : gmap string pyval))
    as Heq; [|by injection Heq].
  rewrite <- Hout. vm_compute. reflexivity.
Defined.

(** X16 at the empty object. *)
Lemma loads_dumps_round_trip_witness :
  loads_json_str (dumps_json_str (VDict [])) = Ok (VDict []).
Proof.
  apply (proj1 (loads_dumps_round_trip (VDict []))); [reflexivity| |reflexivity].
  discriminate.
Defined.

(** X17 at a known version, an unknown one and none. *)
Lemma get_work_obj_falls_back_to_default_witness :
  let routes : gmap string pyval :=
    {["default" := VStr "handler"; "v2" := VStr "handler2"]} in
  router_version.get_work_obj routes (Some "v2") = Some (VStr "handler2")
  ∧ router_version.get_work_obj routes (Some "v9") = Some (VStr "handler")
  ∧ router_version.get_work_obj routes None = Some (VStr "handler").
Proof.
  intros routes. split; [|split].
  - by apply (proj1 (get_work_obj_falls_back_to_default routes (Some "v2")) "v2").
  - rewrite (proj2 (get_work_obj_falls_back_to_default routes (Some "v9")));
      [reflexivity|].
    intros v x [= <-] _ Hx. vm_compute in Hx. discriminate.
  - rewrite (proj2 (get_work_obj_falls_back_to_default routes None));
      [reflexivity|]. intros v x Hv. discriminate.
Defined.
End Coverage.
